(** * Threat-detection core of the hospital defence backend

    A shallow embedding of [python_backend/services/threat_detector.py]
    (class [ThreatDetector]) and of the packet buffer of
    [python_backend/services/network_monitor.py] (class [NetworkMonitor]),
    with the properties the design document states about them.

    Python values are dynamically typed: a packet is a [dict] whose values
    may be [None], an [int], a [float] or a [str].  The embedding keeps that:
    values are a small sum type, calls that can raise return in an error
    monad, [try/except] is a combinator on it, and library objects
    (scikit-learn's scaler and forest, the string parsers of [int], [float]
    and [datetime.fromisoformat], the clock) are fields of environment
    records the functions take as arguments. *)

From Stdlib Require Import ZArith Floats Ascii Lia.
From stdpp Require Import base option list sorting strings pretty gmap.

Set Warnings "-inexact-float".
#[local] Open Scope string_scope.
#[local] Open Scope list_scope.
#[local] Open Scope Z_scope.

(** ** Python values and builtins *)

Module Py.

(** The exceptions ([Exception] subclasses) the modelled code can meet. *)
Inductive exn : Type :=
| ValueError (msg : string)
| TypeError (msg : string)
| OverflowError (msg : string)
| AttributeError (msg : string)
| IndexError (msg : string)
| LibraryError (msg : string).

(** The outcome of a call: a value, or a raised exception. *)
Inductive res (A : Type) : Type :=
| Ok (a : A)
| Raise (e : exn).
Arguments Ok {A} a.
Arguments Raise {A} e.

Definition bind {A B} (m : res A) (k : A -> res B) : res B :=
  match m with
  | Ok a => k a
  | Raise e => Raise e
  end.

#[global] Instance res_ret : MRet res := fun A a => Ok a.
#[global] Instance res_bind : MBind res := fun A B k m => bind m k.

(** [try: body except Exception as e: handler(e)] *)
Definition try_except {A} (body : res A) (handler : exn -> res A) : res A :=
  match body with
  | Ok a => Ok a
  | Raise e => handler e
  end.

Definition raises {A} (m : res A) : Prop := exists e, m = Raise e.

(** A dynamically typed value. *)
Inductive val : Type :=
| VNone
| VInt (z : Z)
| VFloat (f : float)
| VStr (s : string).

Definition is_numeric (v : val) : bool :=
  match v with
  | VInt _ | VFloat _ => true
  | VNone | VStr _ => false
  end.

(** What the interpreter and its libraries provide and the code only
    calls: parsing a string as a number or a date, printing a float,
    reading the clock, drawing an identifier. *)
Record Env : Type := {
  int_of_str : string -> res Z;            (* int(s) *)
  float_of_str : string -> res float;      (* float(s) *)
  str_of_float : float -> string;          (* str(f) *)
  fromisoformat_hour : string -> res Z;    (* datetime.fromisoformat(s).hour *)
  now_hour : Z;                            (* datetime.now().hour *)
  now_isoformat : string;                  (* datetime.now().isoformat() *)
  uuid4 : string;                          (* str(uuid.uuid4()) *)
  format_2f : float -> string              (* f"{x:.2f}" *)
}.

(** [pd.isna(v)] on a scalar: [None] and the float NaN. *)
Definition isna (v : val) : bool :=
  match v with
  | VNone => true
  | VFloat f => PrimFloat.is_nan f
  | VInt _ | VStr _ => false
  end.

(** Truth value of an object, as [not v] and [if v:] test it. *)
Definition truthy (v : val) : bool :=
  match v with
  | VNone => false
  | VInt z => negb (z =? 0)
  | VFloat f => negb (PrimFloat.is_zero f)
  | VStr s => negb (String.eqb s "")
  end.

(** Truth value of a list or set: non-empty. *)
Definition nonempty {A} (l : list A) : bool :=
  match l with
  | [] => false
  | _ :: _ => true
  end.

(** [int(f)] on a float: truncation toward zero. *)
Definition int_of_float (f : float) : res Z :=
  match Prim2SF f with
  | S754_nan => Raise (ValueError "cannot convert float NaN to integer")
  | S754_infinity _ => Raise (OverflowError "cannot convert float infinity to integer")
  | S754_zero _ => Ok 0
  | S754_finite s m e =>
      let a := Z.shiftl (Z.pos m) e in
      Ok (if s then - a else a)
  end.

(** The double nearest to an integer, ties to even; an infinity beyond
    the range of doubles. *)
Definition Z_to_float (z : Z) : float :=
  SF2Prim (binary_normalize prec emax z 0 false).

(** [float(z)] on an int: a finite double, or [OverflowError]. *)
Definition float_of_int (z : Z) : res float :=
  let f := Z_to_float z in
  if PrimFloat.is_finite f
  then Ok f
  else Raise (OverflowError "int too large to convert to float").

(** [int(v)] *)
Definition to_int (env : Env) (v : val) : res Z :=
  match v with
  | VInt z => Ok z
  | VFloat f => int_of_float f
  | VStr s => int_of_str env s
  | VNone => Raise (TypeError "int() argument must be a string or a real number")
  end.

(** [float(v)] *)
Definition to_float (env : Env) (v : val) : res float :=
  match v with
  | VInt z => float_of_int z
  | VFloat f => Ok f
  | VStr s => float_of_str env s
  | VNone => Raise (TypeError "float() argument must be a string or a real number")
  end.

(** [str(v)] *)
Definition to_str (env : Env) (v : val) : string :=
  match v with
  | VNone => "None"
  | VInt z => pretty z
  | VFloat f => str_of_float env f
  | VStr s => s
  end.

(** Text.  A [string] stands for the Python [str] with the same
    characters when all of them are ASCII ([is_ascii]).  On such text
    [upper], [lower], [isdigit] and [split] below are Python's methods;
    beyond ASCII Python follows Unicode (other letters, digits and blanks),
    so what is stated of values computed through these four is stated
    for ASCII text.  [startswith], [replace], [rstrip] and [rsplit] with
    ASCII arguments act the same on any text. *)
Definition is_ascii (s : string) : bool :=
  forallb (fun c => (Ascii.N_of_ascii c <? 128)%N) (String.list_ascii_of_string s).

Definition upper_ascii (c : Ascii.ascii) : Ascii.ascii :=
  let n := Ascii.N_of_ascii c in
  if ((97 <=? n) && (n <=? 122))%N then Ascii.ascii_of_N (n - 32) else c.

Definition lower_ascii (c : Ascii.ascii) : Ascii.ascii :=
  let n := Ascii.N_of_ascii c in
  if ((65 <=? n) && (n <=? 90))%N then Ascii.ascii_of_N (n + 32) else c.

(** [s.upper()] and [s.lower()], on ASCII text. *)
Fixpoint upper (s : string) : string :=
  match s with
  | EmptyString => EmptyString
  | String c s' => String (upper_ascii c) (upper s')
  end.

Fixpoint lower (s : string) : string :=
  match s with
  | EmptyString => EmptyString
  | String c s' => String (lower_ascii c) (lower s')
  end.

(** [s.replace(c, t)] for a one-character pattern [c]. *)
Fixpoint replace_char (c : Ascii.ascii) (t : string) (s : string) : string :=
  match s with
  | EmptyString => EmptyString
  | String a s' =>
      if Ascii.eqb a c then t +:+ replace_char c t s'
      else String a (replace_char c t s')
  end.

(** [c.isspace()] on ASCII: tab to carriage return, the four separators
    and the space. *)
Definition is_space (c : Ascii.ascii) : bool :=
  let n := Ascii.N_of_ascii c in
  (((9 <=? n) && (n <=? 13)) || ((28 <=? n) && (n <=? 32)))%N.

(** [s.split()]: the maximal runs of non-blank characters.  [word] is the
    run being read. *)
Fixpoint split_from (word : string) (s : string) : list string :=
  match s with
  | EmptyString => if String.eqb word "" then [] else [word]
  | String c s' =>
      if is_space c
      then (if String.eqb word "" then split_from "" s'
            else word :: split_from "" s')
      else split_from (word +:+ String c EmptyString) s'
  end.

Definition split (s : string) : list string := split_from "" s.

(** [s.rstrip(c)] for a one-character set. *)
Fixpoint rstrip (c : Ascii.ascii) (s : string) : string :=
  match s with
  | EmptyString => EmptyString
  | String a s' =>
      let r := rstrip c s' in
      if String.eqb r "" && Ascii.eqb a c then EmptyString else String a r
  end.

(** [s.rsplit(c, 1)]: [None] for the one-element answer (no [c] in [s]),
    else the text before and after the last [c]. *)
Fixpoint rsplit1 (c : Ascii.ascii) (s : string) : option (string * string) :=
  match s with
  | EmptyString => None
  | String a s' =>
      match rsplit1 c s' with
      | Some (h, t) => Some (String a h, t)
      | None => if Ascii.eqb a c then Some (EmptyString, s') else None
      end
  end.

Definition is_digit (c : Ascii.ascii) : bool :=
  let n := Ascii.N_of_ascii c in ((48 <=? n) && (n <=? 57))%N.

(** [s.isdigit()] on ASCII text: non-empty, digits only. *)
Definition isdigit (s : string) : bool :=
  negb (String.eqb s "") && forallb is_digit (String.list_ascii_of_string s).

(** [s.startswith(p)] *)
Definition startswith (s p : string) : bool := String.prefix p s.

(** [range(a, b)] *)
Definition range (a b : Z) : list Z := seqZ a (b - a).

(** [d.get(k, default)] and [d.get(k)] on a [dict] with string keys. *)
Definition get (d : gmap string val) (k : string) (dflt : val) : val :=
  default dflt (d !! k).

Definition get_or_None (d : gmap string val) (k : string) : val :=
  get d k VNone.

End Py.


(** ** The detector: feature extraction *)

Module ThreatDetector.
Import Py.

(** [self.threat_types], the closed label set. *)
Definition threat_types : list string :=
  ["Normal"; "Malware"; "DDoS"; "Intrusion"; "Phishing"; "Port_Scan"; "Brute_Force"].

(** [get_protocol_number]: the table is keyed by the upper-cased name. *)
Definition protocol_map : gmap string Z :=
  <["TCP" := 6]> (<["UDP" := 17]> (<["ICMP" := 1]> ∅)).

Definition get_protocol_number (env : Env) (protocol : val) : Z :=
  if isna protocol then 0
  else default 0 (protocol_map !! upper (to_str env protocol)).

(** The argument of [get_time_features]: a [datetime] object (only its
    hour is read) or any other value. *)
Inductive timestamp_arg : Type :=
| Datetime (hour : Z)
| Value (v : val).

Definition get_time_features (env : Env) (timestamp : timestamp_arg) : res Z :=
  match timestamp with
  | Value (VStr s) => fromisoformat_hour env (replace_char "Z"%char "+00:00" s)
  | Datetime hour => Ok hour
  | Value _ => Raise (AttributeError "object has no attribute 'hour'")
  end.

Definition get_port_category (env : Env) (port : val) : res Z :=
  if isna port then Ok 0
  else
    port ← to_int env port;
    if port <? 1024 then Ok 1
    else if port <? 49152 then Ok 2
    else Ok 3.

Definition get_packet_size_category (env : Env) (size : val) : res Z :=
  if isna size then Ok 0
  else
    size ← to_int env size;
    if size <? 64 then Ok 1
    else if size <? 512 then Ok 2
    else if size <? 1024 then Ok 3
    else Ok 4.

Definition is_private_prefix (ip_str : string) : bool :=
  startswith ip_str "192.168."
  || startswith ip_str "10."
  || existsb (fun i => startswith ip_str ("172." +:+ pretty i +:+ ".")) (range 16 32).

Definition get_ip_type_from_string (env : Env) (ip : val) : Z :=
  if isna ip || negb (truthy ip) then 0
  else
    let ip_str := to_str env ip in
    if is_private_prefix ip_str then 1 else 2.

Definition get_source_ip_category := get_ip_type_from_string.
Definition get_destination_ip_category := get_ip_type_from_string.

Definition zero_features : list val := replicate 9 (VInt 0).

(** A packet observation, the [dict] built by the capture loop. *)
Abbreviation packet := (gmap string val).

Definition packet_timestamp (env : Env) (packet_data : packet) : timestamp_arg :=
  match packet_data !! "timestamp" with
  | Some v => Value v
  | None => Datetime (now_hour env)
  end.

Definition extract_features_from_packet (env : Env) (packet_data : packet)
  : res (list val) :=
  try_except
    (let f0 := get packet_data "packetSize" (VInt 0) in
     let f1 := get packet_data "sourcePort" (VInt 0) in
     let f2 := get packet_data "destinationPort" (VInt 0) in
     let f3 := get_protocol_number env (get packet_data "protocol" (VStr "")) in
     f4 ← get_time_features env (packet_timestamp env packet_data);
     f5 ← get_port_category env (get packet_data "destinationPort" (VInt 0));
     f6 ← get_packet_size_category env (get packet_data "packetSize" (VInt 0));
     let f7 := get_source_ip_category env (get packet_data "sourceIP" (VStr "")) in
     let f8 := get_destination_ip_category env (get packet_data "destinationIP" (VStr "")) in
     Ok [f0; f1; f2; VInt f3; VInt f4; VInt f5; VInt f6; VInt f7; VInt f8])
    (fun _ => Ok zero_features).

(** A row of the uploaded table: the cells of the eight required columns. *)
Record Row : Type := {
  source_ip : val;
  dest_ip : val;
  source_port : val;
  dest_port : val;
  protocol : val;
  packet_size : val;
  duration : val;
  threat_type : val
}.

(** What the import writes to the log: the level and the fixed part of
    each message. *)
Inductive level : Type := INFO | WARNING | ERROR.
Definition log : Type := list (level * string).

(** [float(x) if pd.notna(x) else 0] *)
Definition float_or_zero (env : Env) (x : val) : res val :=
  if negb (isna x) then f ← to_float env x; Ok (VFloat f) else Ok (VInt 0).

(** The [try] block of [extract_features_from_csv_row]. *)
Definition csv_row_try_block (env : Env) (row : Row) : res (list val) :=
  f0 ← float_or_zero env (packet_size row);
  f1 ← float_or_zero env (source_port row);
  f2 ← float_or_zero env (dest_port row);
  let f3 := get_protocol_number env (protocol row) in
  f4 ← get_time_features env (Datetime (now_hour env));
  f5 ← get_port_category env (dest_port row);
  f6 ← get_packet_size_category env (packet_size row);
  let f7 := get_ip_type_from_string env (source_ip row) in
  let f8 := get_ip_type_from_string env (dest_ip row) in
  Ok [f0; f1; f2; VInt f3; VInt f4; VInt f5; VInt f6; VInt f7; VInt f8].

(** [extract_features_from_csv_row]: what it logs and what it returns.
    The handler logs an error and returns nine zeros. *)
Definition extract_features_from_csv_row (env : Env) (row : Row)
  : log * list val :=
  match csv_row_try_block env row with
  | Ok features => ([], features)
  | Raise _ => ([(ERROR, "Error extracting features")], zero_features)
  end.

(** *** Severity, threat records and the detector state *)

Definition get_threat_type (classification : string) : string :=
  let type_map : gmap string string :=
    <["Malware" := "Malware Detection"]>
    (<["DDoS" := "DDoS Attack"]>
    (<["Intrusion" := "Unauthorized Access"]>
    (<["Phishing" := "Phishing Attempt"]>
    (<["Port_Scan" := "Port Scanning"]>
    (<["Brute_Force" := "Brute Force Attack"]> ∅))))) in
  default "Unknown Threat" (type_map !! classification).

Definition get_severity (classification : string) (confidence : float) : string :=
  if (0.9 <? confidence)%float then "Critical"
  else if (0.8 <? confidence)%float then "High"
  else if (0.7 <? confidence)%float then "Medium"
  else "Low".

Definition get_threat_description (env : Env) (classification : string)
    (packet_data : packet) : string :=
  let source := to_str env (get packet_data "sourceIP" (VStr "Unknown")) in
  let destination := to_str env (get packet_data "destinationIP" (VStr "Unknown")) in
  let dest_port := to_str env (get packet_data "destinationPort" (VStr "N/A")) in
  let descriptions : gmap string string :=
    <["Malware" := "Malicious activity detected from " +:+ source +:+ " targeting " +:+ destination]>
    (<["DDoS" := "Potential DDoS attack detected from " +:+ source]>
    (<["Intrusion" := "Unauthorized access attempt from " +:+ source +:+ " to "
                        +:+ destination +:+ ":" +:+ dest_port]>
    (<["Phishing" := "Phishing attempt detected from " +:+ source]>
    (<["Port_Scan" := "Port scanning activity detected from " +:+ source]>
    (<["Brute_Force" := "Brute force attack detected against "
                          +:+ destination +:+ ":" +:+ dest_port]> ∅))))) in
  default ("Suspicious " +:+ lower classification +:+ " activity detected")
          (descriptions !! classification).

Record ThreatRecord : Type := {
  th_id : string;
  th_timestamp : val;
  th_type : string;
  th_severity : string;
  th_source : val;
  th_destination : val;
  th_sourcePort : val;
  th_destinationPort : val;
  th_protocol : val;
  th_packetSize : val;
  th_description : string;
  th_classification : string;
  th_confidence : float;
  th_networkInterface : val;
  th_rawPacketData : packet;
  th_features : list val
}.

(** Returns [None] where the Python returns [None] from its handler. *)
Definition create_threat_record (env : Env) (packet_data : packet)
    (classification : string) (confidence : float) (features : list val)
  : res (option ThreatRecord) :=
  try_except
    (Ok (Some {|
       th_id := uuid4 env;
       th_timestamp := get packet_data "timestamp" (VStr (now_isoformat env));
       th_type := get_threat_type classification;
       th_severity := get_severity classification confidence;
       th_source := get packet_data "sourceIP" (VStr "Unknown");
       th_destination := get packet_data "destinationIP" (VStr "Unknown");
       th_sourcePort := get_or_None packet_data "sourcePort";
       th_destinationPort := get_or_None packet_data "destinationPort";
       th_protocol := get packet_data "protocol" (VStr "Unknown");
       th_packetSize := get_or_None packet_data "packetSize";
       th_description := get_threat_description env classification packet_data;
       th_classification := classification;
       th_confidence := confidence;
       th_networkInterface := get packet_data "networkInterface" (VStr "Unknown");
       th_rawPacketData := packet_data;
       th_features := features
     |}))
    (fun _ => Ok None).

(** scikit-learn's objects, known by the methods the detector calls on
    them.  [transform] and the two predictions take one row (the code
    passes a one-row batch and reads entry 0 of the answer). *)
Record Scaler : Type := {
  transform : list val -> res (list float)
}.

Record Classifier : Type := {
  predict : list float -> res Z;
  predict_proba : list float -> res (list float)
}.

Record training_record : Type := {
  hist_date : string;
  hist_samples : Z;
  hist_accuracy : string;
  hist_version : Z
}.

(** The attributes of a [ThreatDetector] instance that the modelled
    methods read or write. *)
Record detector : Type := {
  model : option Classifier;
  scaler : option Scaler;
  is_trained : bool;
  model_version : Z;
  total_samples_trained : Z;
  last_training_date : option string;
  training_history : list training_record;
  threat_threshold : float
}.

Definition default_threat_threshold : float := 0.7%float.

(** [__init__], given the value of [THREAT_THRESHOLD]. *)
Definition init (threshold : float) : detector := {|
  model := None;
  scaler := None;
  is_trained := false;
  model_version := 1;
  total_samples_trained := 0;
  last_training_date := None;
  training_history := [];
  threat_threshold := threshold
|}.

(** [LabelEncoder().fit(threat_types).classes_]: the labels, sorted. *)
Definition string_le (a b : string) : Prop := String.leb a b = true.
#[local] Instance string_le_dec : RelDecision string_le.
Proof. intros a b. unfold string_le. apply _. Defined.

Definition classes_ : list string := merge_sort string_le threat_types.

Definition inverse_transform (prediction : Z) : res string :=
  if (0 <=? prediction) && (prediction <? Z.of_nat (length classes_))
  then Ok (default "" (classes_ !! Z.to_nat prediction))
  else Raise (ValueError "y contains previously unseen labels").

(** [probabilities[prediction]] on a numpy vector. *)
Definition np_index (probabilities : list float) (i : Z) : res float :=
  let n := Z.of_nat (length probabilities) in
  let j := if i <? 0 then i + n else i in
  match (if (0 <=? j) && (j <? n) then probabilities !! Z.to_nat j else None) with
  | Some x => Ok x
  | None => Raise (IndexError "index is out of bounds")
  end.

(** [o is None] *)
Definition is_None {A} (o : option A) : bool :=
  match o with
  | None => true
  | Some _ => false
  end.

(** [self.scaler] and [self.model] when a method is called on them. *)
Definition attr {A} (o : option A) : res A :=
  match o with
  | Some a => Ok a
  | None => Raise (AttributeError "'NoneType' object has no attribute")
  end.

Record analysis : Type := {
  classification : string;
  confidence : val;
  threat : option ThreatRecord;
  isThreat : bool
}.

Definition unknown_result : analysis :=
  {| classification := "Unknown"; confidence := VFloat 0.5;
     threat := None; isThreat := false |}.

Definition error_result : analysis :=
  {| classification := "Error"; confidence := VInt 0;
     threat := None; isThreat := false |}.

(** The first half of the [try] block of [analyze_packet]: features,
    predicted label and its confidence. *)
Definition classify (env : Env) (self : detector) (packet_data : packet)
  : res (list val * string * float) :=
  features ← extract_features_from_packet env packet_data;
  sc ← attr (scaler self);
  features_scaled ← transform sc features;
  m ← attr (model self);
  prediction ← predict m features_scaled;
  probabilities ← predict_proba m features_scaled;
  classification ← inverse_transform prediction;
  confidence ← np_index probabilities prediction;
  Ok (features, classification, confidence).

Definition is_threat_of (self : detector) (classification : string)
    (confidence : float) : bool :=
  negb (String.eqb classification "Normal")
  && (threat_threshold self <? confidence)%float.

(** The [try] block of [analyze_packet]. *)
Definition analyze_try_block (env : Env) (self : detector) (packet_data : packet)
  : res analysis :=
  '(features, classification, confidence) ← classify env self packet_data;
  let is_threat := is_threat_of self classification confidence in
  threat ← (if is_threat
            then create_threat_record env packet_data classification
                   confidence features
            else Ok None);
  Ok {| classification := classification;
        confidence := VFloat confidence;
        threat := threat;
        isThreat := is_threat |}.

Definition analyze_packet (env : Env) (self : detector) (packet_data : packet)
  : res analysis :=
  if negb (is_trained self) || is_None (model self)
  then Ok unknown_result
  else
    try_except (analyze_try_block env self packet_data)
               (fun _ => Ok error_result).

(** *** Bulk import *)

Record Sample : Type := {
  features : list val;
  label : val;
  raw_data : Row
}.

(** The table [pd.read_csv] returned: the column names and, per row, the
    cells of the required columns (read only once the column check has
    passed). *)
Record DataFrame : Type := {
  columns : list string;
  rows : list Row
}.

Definition required_columns : list string :=
  ["source_ip"; "dest_ip"; "source_port"; "dest_port";
   "protocol"; "packet_size"; "duration"; "threat_type"].

(** [v in valid_threats], the test behind [isin] and the set difference. *)
Definition is_valid_threat (v : val) : bool :=
  match v with
  | VStr s => bool_decide (s ∈ threat_types)
  | _ => false
  end.

(** [np.isnan(features)] on a list of scalars. *)
Definition np_isnan (xs : list val) : res (list bool) :=
  mapM (fun v => match v with
                 | VInt _ => Ok false
                 | VFloat f => Ok (PrimFloat.is_nan f)
                 | VNone | VStr _ =>
                     Raise (TypeError "ufunc 'isnan' not supported for the input types")
                 end) xs.

(** One turn of the loop over [df.iterrows()]: the log holds what the
    feature extraction logged, then the warning of the loop's own
    handler. *)
Definition process_row (env : Env) (row : Row) (training_data : list Sample)
  : log * list Sample :=
  let '(l, features) := extract_features_from_csv_row env row in
  let body : res (list Sample) :=
    let label := threat_type row in
    valid ← (if (length features =? 9)%nat
             then nans ← np_isnan features; Ok (negb (existsb id nans))
             else Ok false);
    if (valid : bool)
    then Ok (training_data ++ [{| features := features; label := label;
                                  raw_data := row |}])
    else Ok training_data in
  match body with
  | Ok training_data' => (l, training_data')
  | Raise _ => (l ++ [(WARNING, "Error processing row")], training_data)
  end.

Fixpoint process_rows (env : Env) (rows : list Row) (training_data : list Sample)
  : log * list Sample :=
  match rows with
  | [] => ([], training_data)
  | row :: rows' =>
      let '(l1, training_data1) := process_row env row training_data in
      let '(l2, training_data2) := process_rows env rows' training_data1 in
      (l1 ++ l2, training_data2)
  end.

Definition process_csv_file (env : Env) (df : DataFrame)
  : log * res (list Sample) :=
  let l0 := [(INFO, "Processing CSV file for training"); (INFO, "CSV loaded")] in
  let missing_columns :=
    filter (fun col => col ∉ columns df) required_columns in
  if nonempty missing_columns
  then (l0 ++ [(ERROR, "Error processing CSV file")],
        Raise (ValueError "Missing required columns"))
  else
    (* the set difference, as the list of offending cells: only its
       emptiness is tested *)
    let invalid_threats :=
      filter (fun v => is_valid_threat v = false) (map threat_type (rows df)) in
    let '(l1, rows1) :=
      if nonempty invalid_threats
      then ([(WARNING, "Invalid threat types found")],
            filter (fun r => is_valid_threat (threat_type r) = true) (rows df))
      else ([], rows df) in
    let '(l2, training_data) := process_rows env rows1 [] in
    (l0 ++ l1 ++ [(INFO, "Processing valid rows")] ++ l2
        ++ [(INFO, "Extracted valid training samples")],
     Ok training_data).

(** *** Training *)

(** A method that mutates [self] and may raise: the attributes after the
    call, whatever the outcome, and the outcome. *)
Definition method (A : Type) : Type := detector -> detector * res A.

#[global] Instance method_ret : MRet method := fun A a self => (self, Ok a).
#[global] Instance method_bind : MBind method := fun A B k m self =>
  match m self with
  | (self', Ok a) => k a self'
  | (self', Raise e) => (self', Raise e)
  end.

Definition call {A} (r : res A) : method A := fun self => (self, r).
Definition raise {A} (e : exn) : method A := fun self => (self, Raise e).
Definition assign (f : detector -> detector) : method unit :=
  fun self => (f self, Ok tt).
Definition read {A} (f : detector -> A) : method A :=
  fun self => (self, Ok (f self)).

Definition set_model (m : option Classifier) (self : detector) : detector :=
  {| model := m; scaler := scaler self; is_trained := is_trained self;
     model_version := model_version self;
     total_samples_trained := total_samples_trained self;
     last_training_date := last_training_date self;
     training_history := training_history self;
     threat_threshold := threat_threshold self |}.

Definition set_scaler (sc : option Scaler) (self : detector) : detector :=
  {| model := model self; scaler := sc; is_trained := is_trained self;
     model_version := model_version self;
     total_samples_trained := total_samples_trained self;
     last_training_date := last_training_date self;
     training_history := training_history self;
     threat_threshold := threat_threshold self |}.

Definition set_model_version (v : Z) (self : detector) : detector :=
  {| model := model self; scaler := scaler self; is_trained := is_trained self;
     model_version := v;
     total_samples_trained := total_samples_trained self;
     last_training_date := last_training_date self;
     training_history := training_history self;
     threat_threshold := threat_threshold self |}.

(** The statistics written after a successful fit. *)
Definition set_statistics (n : Z) (date : string) (self : detector) : detector :=
  {| model := model self; scaler := scaler self; is_trained := true;
     model_version := model_version self;
     total_samples_trained := total_samples_trained self + n;
     last_training_date := Some date;
     training_history := training_history self;
     threat_threshold := threat_threshold self |}.

Definition append_history (r : training_record) (self : detector) : detector :=
  {| model := model self; scaler := scaler self; is_trained := is_trained self;
     model_version := model_version self;
     total_samples_trained := total_samples_trained self;
     last_training_date := last_training_date self;
     training_history := training_history self ++ [r];
     threat_threshold := threat_threshold self |}.

(** The collaborators of a training run: the record store and
    scikit-learn.  [StandardScaler] and [RandomForestClassifier] are the
    objects as constructed, before any fit. *)
Record Services : Type := {
  Database : res unit;
  get_all_training_data : list Sample;
  train_test_split :
    list (list float) -> list val ->
    res (list (list float) * list (list float) * list val * list val);
  StandardScaler : Scaler;
  fit_transform : list (list float) -> res (Scaler * list (list float));
  RandomForestClassifier : Classifier;
  fit : list (list float) -> list Z -> res Classifier;
  classification_report : list Z -> list Z -> res string
}.

(** [X.shape[1]] of [np.array(rows)]. *)
Definition np_shape1 (X : list (list val)) : res Z :=
  match X with
  | [] => Raise (IndexError "tuple index out of range")
  | r :: X' =>
      if forallb (fun r' => (length r' =? length r)%nat) X'
      then Ok (Z.of_nat (length r))
      else Raise (ValueError "inhomogeneous shape")
  end.

(** The entries of [np.array(rows)] as doubles; text and [None] make
    [np.isnan] raise.  Exact for integers within 64 bits: a larger one
    makes [np.array] build an array of objects, on which [np.isnan]
    raises too. *)
Definition np_float (v : val) : res float :=
  match v with
  | VInt z => float_of_int z
  | VFloat f => Ok f
  | VNone | VStr _ =>
      Raise (TypeError "ufunc 'isnan' not supported for the input types")
  end.

Definition max_float : float := 1.7976931348623157e308%float.

(** [np.nan_to_num] on one entry. *)
Definition nan_to_num (f : float) : float :=
  if PrimFloat.is_nan f then 0%float
  else if (f =? infinity)%float then max_float
  else if (f =? neg_infinity)%float then (- max_float)%float
  else f.

(** [np.unique(y)], evaluated for the log line on the label
    distribution: sorting an object array that holds a [None] raises (text
    and numbers together make an array of text, which sorts). *)
Definition np_unique (y : list val) : res unit :=
  if existsb (fun v => match v with VNone => true | _ => false end) y
  then Raise (TypeError "'<' not supported between instances of 'NoneType'")
  else Ok tt.

(** [label_encoder.transform] on one label. *)
Definition label_index (classes : list string) (s : string) : option Z :=
  (fun p => Z.of_nat p.1) <$> list_find (fun c => c = s) classes.

Definition label_transform (y : val) : res Z :=
  match y with
  | VStr s =>
      match label_index classes_ s with
      | Some i => Ok i
      | None => Raise (ValueError "y contains previously unseen labels")
      end
  | _ => Raise (ValueError "y contains previously unseen labels")
  end.

(** [accuracy_score]: the fraction of equal entries. *)
Definition accuracy_score (y_true y_pred : list Z) : float :=
  let hits := filter (fun p => p.1 = p.2) (zip y_true y_pred) in
  (Z_to_float (Z.of_nat (length hits)) / Z_to_float (Z.of_nat (length y_true)))%float.

Record TrainResult : Type := {
  success : bool;
  samplesProcessed : Z;
  accuracy : string;
  version : Z;
  epochs : string
}.

(** [ValueError(f"Insufficient training data. Need at least 10 samples, got {n}")] *)
Definition insufficient_training_data (n : Z) : exn :=
  ValueError ("Insufficient training data. Need at least 10 samples, got " +:+ pretty n).

(** [train_model].  The outer handler logs and re-raises, so it is the
    identity on outcomes.  Saving samples to the record store and writing
    the artifact to disk touch no attribute and do not raise (both catch
    their own errors); they are left out.  [np.array(X)] is built before
    the labels are listed and its width is read after: [np_shape1] stands
    for both, after [np_unique], which gives the exception of the source
    unless the rows are of different lengths and a label is [None] at
    once. *)
Definition train_model (env : Env) (svc : Services)
    (training_data : option (list Sample)) : method TrainResult :=
  _ ← assign (fun self => set_model_version (model_version self + 1) self);
  training_data ← match training_data with
                   | None =>
                       _ ← call (Database svc);
                       mret (get_all_training_data svc)
                   | Some training_data =>
                       _ ← call (Database svc);
                       mret training_data
                   end;
  let n := Z.of_nat (length training_data) in
  if n <? 10
  then raise (insufficient_training_data n)
  else
    let X := map features training_data in
    let y := map label training_data in
    _ ← call (np_unique y);
    d ← call (np_shape1 X);
    if negb (d =? 9)
    then raise (ValueError ("Expected 9 features, got " +:+ pretty d))
    else
      X ← call (mapM (mapM np_float) X);
      let X := if existsb (existsb PrimFloat.is_nan) X
               then map (map nan_to_num) X else X in
      '(X_train, X_test, y_train, y_test) ← call (train_test_split svc X y);
      _ ← assign (set_scaler (Some (StandardScaler svc)));
      '(sc, X_train_scaled) ← call (fit_transform svc X_train);
      _ ← assign (set_scaler (Some sc));
      X_test_scaled ← call (mapM (fun r => transform sc (map VFloat r)) X_test);
      y_train_encoded ← call (mapM label_transform y_train);
      y_test_encoded ← call (mapM label_transform y_test);
      _ ← assign (set_model (Some (RandomForestClassifier svc)));
      m ← call (fit svc X_train_scaled y_train_encoded);
      _ ← assign (set_model (Some m));
      y_pred ← call (mapM (predict m) X_test_scaled);
      let acc := accuracy_score y_test_encoded y_pred in
      _ ← call (classification_report svc y_test_encoded y_pred);
      _ ← assign (set_statistics n (now_isoformat env));
      let acc_text := format_2f env (acc * 100)%float in
      _ ← assign (fun self =>
             append_history {| hist_date := now_isoformat env;
                               hist_samples := n;
                               hist_accuracy := acc_text;
                               hist_version := model_version self |} self);
      v ← read model_version;
      mret {| success := true;
              samplesProcessed := n;
              accuracy := acc_text;
              version := v;
              epochs := "N/A (Random Forest)" |}.

(** *** Readiness *)

(** [is_model_loaded] *)
Definition is_model_loaded (self : detector) : bool :=
  is_trained self && negb (is_None (model self)) && negb (is_None (scaler self)).

(** *** Persistence of the artifact *)

(** A file of the artifact: absent, holding what was last written to it,
    or present but unreadable. *)
Inductive file (A : Type) : Type :=
| Absent
| Holds (a : A)
| Corrupt.
Arguments Absent {A}.
Arguments Holds {A} a.
Arguments Corrupt {A}.

(** [os.path.exists] *)
Definition exists_ {A} (f : file A) : bool :=
  match f with
  | Absent => false
  | Holds _ | Corrupt => true
  end.

(** [joblib.load] and [json.load] on a file that exists. *)
Definition load {A} (f : file A) : res A :=
  match f with
  | Holds a => Ok a
  | Absent => Raise (LibraryError "No such file or directory")
  | Corrupt => Raise (LibraryError "could not read the file")
  end.

(** A write ([joblib.dump], [json.dump]): it succeeds and the file holds
    the value, or it raises and leaves the file in the state given by the
    fault. *)
Definition write {A} (fault : option (file A)) (a : A) : file A * res unit :=
  match fault with
  | None => (Holds a, Ok tt)
  | Some left_behind => (left_behind, Raise (LibraryError "write failed"))
  end.

(** The metadata document: the keys [load_metadata] reads, each either
    missing or holding a value of the type [save_metadata] writes, and the
    two lists written for information. *)
Record Metadata : Type := {
  md_version : option Z;
  md_lastTrainingDate : option string;
  md_totalSamplesTrained : option Z;
  md_trainingHistory : option (list training_record);
  md_threatTypes : list string;
  md_features : list string
}.

Record Disk : Type := {
  model_file : file (option Classifier);
  scaler_file : file (option Scaler);
  metadata_file : file Metadata
}.

(** What can go wrong while saving: for each of the three writes, nothing,
    or the state the failed write leaves its file in. *)
Record WriteFaults : Type := {
  model_fault : option (file (option Classifier));
  scaler_fault : option (file (option Scaler));
  metadata_fault : option (file Metadata)
}.

Definition no_faults : WriteFaults :=
  {| model_fault := None; scaler_fault := None; metadata_fault := None |}.

Definition feature_names : list string :=
  ["packet_size"; "source_port"; "dest_port"; "protocol";
   "hour"; "port_category"; "size_category"; "source_ip_type"; "dest_ip_type"].

(** [save_metadata]: a failed write is logged, not raised. *)
Definition save_metadata (faults : WriteFaults) (self : detector) (disk : Disk) : Disk :=
  let metadata := {|
    md_version := Some (model_version self);
    md_lastTrainingDate := last_training_date self;
    md_totalSamplesTrained := Some (total_samples_trained self);
    md_trainingHistory := Some (training_history self);
    md_threatTypes := threat_types;
    md_features := feature_names
  |} in
  {| model_file := model_file disk;
     scaler_file := scaler_file disk;
     metadata_file := (write (metadata_fault faults) metadata).1 |}.

(** [save_model]: the model, then the scaler, then the metadata; [False]
    as soon as one of the first two writes raises. *)
Definition save_model (faults : WriteFaults) (self : detector) (disk : Disk)
  : Disk * bool :=
  let '(model_file', r1) := write (model_fault faults) (model self) in
  let disk1 := {| model_file := model_file'; scaler_file := scaler_file disk;
                  metadata_file := metadata_file disk |} in
  match r1 with
  | Raise _ => (disk1, false)
  | Ok _ =>
      let '(scaler_file', r2) := write (scaler_fault faults) (scaler self) in
      let disk2 := {| model_file := model_file'; scaler_file := scaler_file';
                      metadata_file := metadata_file disk |} in
      match r2 with
      | Raise _ => (disk2, false)
      | Ok _ => (save_metadata faults self disk2, true)
      end
  end.

(** [load_metadata]: the four attributes, with the defaults of the
    [get] calls for missing keys; nothing changes when the document is
    absent or unreadable. *)
Definition load_metadata (self : detector) (disk : Disk) : detector :=
  if exists_ (metadata_file disk)
  then
    match load (metadata_file disk) with
    | Ok metadata =>
        {| model := model self; scaler := scaler self;
           is_trained := is_trained self;
           model_version := default 1 (md_version metadata);
           total_samples_trained := default 0 (md_totalSamplesTrained metadata);
           last_training_date := md_lastTrainingDate metadata;
           training_history := default [] (md_trainingHistory metadata);
           threat_threshold := threat_threshold self |}
    | Raise _ => self
    end
  else self.

Definition set_is_trained (b : bool) (self : detector) : detector :=
  {| model := model self; scaler := scaler self; is_trained := b;
     model_version := model_version self;
     total_samples_trained := total_samples_trained self;
     last_training_date := last_training_date self;
     training_history := training_history self;
     threat_threshold := threat_threshold self |}.

(** [load_model]: the model is assigned before the scaler is read. *)
Definition load_model (self : detector) (disk : Disk) : detector * bool :=
  if exists_ (model_file disk) && exists_ (scaler_file disk)
  then
    match load (model_file disk) with
    | Raise _ => (self, false)
    | Ok m =>
        let self := set_model m self in
        match load (scaler_file disk) with
        | Raise _ => (self, false)
        | Ok sc =>
            let self := set_scaler sc self in
            let self := load_metadata self disk in
            (set_is_trained true self, true)
        end
    end
  else (self, false).

(** [initialize]: the answer of [load_model]. *)
Definition initialize (self : detector) (disk : Disk) : detector * bool :=
  let '(self, loaded) := load_model self disk in
  if loaded then (self, true) else (self, false).

(** *** Learning from detections *)

(** The stored training rows: the sample and the tag of its origin. *)
Definition training_store : Type := list (Sample * string).

(** [Database.save_training_data]: the insertion may fail; the failure is
    logged, not raised. *)
Definition save_training_data (insert : Sample -> res unit)
    (store : training_store) (training_sample : Sample) (source : string)
  : training_store :=
  match insert training_sample with
  | Ok _ => store ++ [(training_sample, source)]
  | Raise _ => store
  end.

(** [v > 0.9] for a confidence: an [int] exceeds 0.9 exactly when it is
    positive. *)
Definition exceeds_0_9 (v : val) : res bool :=
  match v with
  | VFloat f => Ok (0.9 <? f)%float
  | VInt z => Ok (0 <? z)
  | VNone | VStr _ =>
      Raise (TypeError "'>' not supported between instances")
  end.

(** [learn_from_detection]: the store after the call; every exception is
    caught and logged. *)
Definition learn_from_detection (env : Env) (svc : Services)
    (insert : Sample -> res unit) (store : training_store)
    (packet_data : packet) (a : analysis) : training_store :=
  let body : res training_store :=
    high ← exceeds_0_9 (confidence a);
    if (high : bool)
    then
      features ← extract_features_from_packet env packet_data;
      let training_sample := {|
        features := features;
        label := VStr (classification a);
        raw_data := {|
          source_ip := get_or_None packet_data "sourceIP";
          dest_ip := get_or_None packet_data "destinationIP";
          source_port := get_or_None packet_data "sourcePort";
          dest_port := get_or_None packet_data "destinationPort";
          protocol := get_or_None packet_data "protocol";
          packet_size := get_or_None packet_data "packetSize";
          duration := VInt 0;
          threat_type := VStr (classification a)
        |}
      |} in
      _ ← Database svc;
      Ok (save_training_data insert store training_sample "live_detection")
    else Ok store in
  match body with
  | Ok store' => store'
  | Raise _ => store
  end.

End ThreatDetector.

(** ** The capture side: the packet buffer *)

Module NetworkMonitor.
Import Py.

Abbreviation packet := (gmap string val).

Record monitor : Type := {
  packet_buffer : list packet;
  buffer_size : Z;
  packet_handler : option (packet -> res unit)
}.

(** [__init__]: an empty buffer of capacity 1000, no handler. *)
Definition init : monitor :=
  {| packet_buffer := []; buffer_size := 1000; packet_handler := None |}.

Definition set_packet_handler (handler : packet -> res unit) (self : monitor)
  : monitor :=
  {| packet_buffer := packet_buffer self; buffer_size := buffer_size self;
     packet_handler := Some handler |}.

Definition set_packet_buffer (b : list packet) (self : monitor) : monitor :=
  {| packet_buffer := b; buffer_size := buffer_size self;
     packet_handler := packet_handler self |}.

(** The address and port of an endpoint such as [192.168.1.100.52345]. *)
Definition endpoint (env : Env) (text : string) : res (string * Z) :=
  match rsplit1 "."%char text with
  | Some (ip, port_text) =>
      port ← (if isdigit port_text then int_of_str env port_text else Ok 0);
      Ok (ip, port)
  | None => Ok (text, 0)
  end.

(** The loop looking for the word [length]: the number after its first
    occurrence that has a successor, 0 when that is not a number or there
    is none. *)
Fixpoint packet_size_of (env : Env) (parts : list string) : Z :=
  match parts with
  | part :: ((next :: _) as rest) =>
      if String.eqb part "length"
      then match int_of_str env next with
           | Ok n => n
           | Raise _ => 0
           end
      else packet_size_of env rest
  | _ => 0
  end.

(** [parse_packet_line]: [None] for a line that is dropped, and for any
    exception (the handler returns [None]). *)
Definition parse_packet_line (env : Env) (line : string) (interface : string)
  : option packet :=
  let body : res (option packet) :=
    if negb (startswith line "IP ") then Ok None
    else
      let parts := split line in
      if (length parts <? 6)%nat then Ok None
      else
        let src_dst := default "" (parts !! 1%nat) in
        let dst_part := rstrip ":"%char (default "" (parts !! 3%nat)) in
        let protocol := default "Unknown" (parts !! 4%nat) in
        '(source_ip, source_port) ← endpoint env src_dst;
        '(dest_ip, dest_port) ← endpoint env dst_part;
        let packet_size := packet_size_of env parts in
        Ok (Some (<["id" := VStr (uuid4 env)]>
                 (<["timestamp" := VStr (now_isoformat env)]>
                 (<["sourceIP" := VStr source_ip]>
                 (<["sourcePort" := VInt source_port]>
                 (<["destinationIP" := VStr dest_ip]>
                 (<["destinationPort" := VInt dest_port]>
                 (<["protocol" := VStr (lower protocol)]>
                 (<["packetSize" := VInt packet_size]>
                 (<["networkInterface" := VStr interface]>
                 (<["rawLine" := VStr line]> ∅))))))))))) in
  match body with
  | Ok r => r
  | Raise _ => None
  end.

(** [l.pop(0)]: drops the first entry (the list is non-empty where the
    code calls it). *)
Definition pop0 {A} (l : list A) : list A := drop 1 l.

(** [handle_packet]: the buffer is updated before the handler runs, and
    whatever the handler raises is caught and logged. *)
Definition handle_packet (self : monitor) (packet : packet) : monitor * res unit :=
  let self := set_packet_buffer (packet_buffer self ++ [packet]) self in
  let self :=
    if buffer_size self <? Z.of_nat (length (packet_buffer self))
    then set_packet_buffer (pop0 (packet_buffer self)) self
    else self in
  (self,
   try_except
     (match packet_handler self with
      | Some handler => handler packet
      | None => Ok tt
      end)
     (fun _ => Ok tt)).

(** *** Several capture loops on one buffer

    [start_monitoring] starts one [monitor_interface] thread per interface
    (two by default), every one of them calls [handle_packet] on the same
    monitor, and nothing locks the buffer.  A call is followed through the
    points between which another thread may run: after the append, after
    the length test, after the pop. *)
Inductive call_state : Type :=
| Idle                          (* between two calls *)
| Appended (packet : packet)    (* the append is done *)
| Popping (packet : packet)     (* the test found the buffer too long *)
| Handling (packet : packet).   (* the handler is next *)

(** A call that has appended and not yet finished with the buffer. *)
Definition updating (at_ : call_state) : bool :=
  match at_ with
  | Appended _ | Popping _ => true
  | Idle | Handling _ => false
  end.

(** One step of one loop.  [next] is the packet the loop has parsed and
    handles when it is between two calls.  [pop(0)] on an empty list would
    raise into the handler of the call, which ends it; the packet handler
    touches no attribute of the monitor and what it raises is caught. *)
Definition loop_step (self : monitor) (at_ : call_state) (next : packet)
  : monitor * call_state :=
  match at_ with
  | Idle =>
      (set_packet_buffer (packet_buffer self ++ [next]) self, Appended next)
  | Appended packet =>
      if buffer_size self <? Z.of_nat (length (packet_buffer self))
      then (self, Popping packet)
      else (self, Handling packet)
  | Popping packet =>
      if nonempty (packet_buffer self)
      then (set_packet_buffer (pop0 (packet_buffer self)) self, Handling packet)
      else (self, Idle)
  | Handling packet => (self, Idle)
  end.

(** The monitor and where each loop is. *)
Record capture : Type := {
  shared : monitor;
  loops : list call_state
}.

(** [start_monitoring]: one loop per interface, none in a call yet. *)
Definition start_monitoring (self : monitor) (interfaces : nat) : capture :=
  {| shared := self; loops := replicate interfaces Idle |}.

(** A turn of the scheduler: the loop that runs next, and the packet it
    has parsed. *)
Definition turn : Type := nat * packet.

Definition take_turn (c : capture) (t : turn) : capture :=
  match loops c !! t.1 with
  | Some at_ =>
      let '(self, at') := loop_step (shared c) at_ t.2 in
      {| shared := self; loops := <[t.1 := at']> (loops c) |}
  | None => c
  end.

(** The capture after a schedule, any interleaving of the loops' steps. *)
Definition interleaving (c : capture) (schedule : list turn) : capture :=
  foldl take_turn c schedule.

(** [l[start:]] *)
Definition slice_from {A} (l : list A) (start : Z) : list A :=
  let n := Z.of_nat (length l) in
  let i := if start <? 0 then Z.max 0 (start + n) else Z.min start n in
  drop (Z.to_nat i) l.

(** [get_recent_packets] *)
Definition get_recent_packets (self : monitor) (count : Z) : list packet :=
  if nonempty (packet_buffer self)
  then slice_from (packet_buffer self) (- count)
  else [].

(** The test both direction checks apply to an address; [startswith] is a
    method of text only. *)
Definition in_private_range (ip : val) : res bool :=
  match ip with
  | VStr ip =>
      Ok (startswith ip "192.168."
          || startswith ip "10."
          || existsb (fun i => startswith ip ("172." +:+ pretty i +:+ ".")) (range 16 32))
  | _ => Raise (AttributeError "object has no attribute 'startswith'")
  end.

Definition is_inbound_traffic (packet : packet) : res bool :=
  in_private_range (get packet "destinationIP" (VStr "")).

Definition is_outbound_traffic (packet : packet) : res bool :=
  in_private_range (get packet "sourceIP" (VStr "")).

End NetworkMonitor.

(** ** The application: what happens to a captured packet *)

Module App.
Import Py ThreatDetector.

(** The entries of [system_status] the packet handler writes. *)
Record Status : Type := {
  threatsDetected : Z;
  activeIncidents : Z;
  lastUpdate : string
}.

(** The requests the handler makes of its collaborators, in order. *)
Inductive request : Type :=
| SaveThreat (t : ThreatRecord)
| CreateAlert (threat_id : option string) (t : ThreatRecord)
| SendThreatAlert (t : ThreatRecord)
| MarkAlertEmailSent (alert_id : option string)
| Emit (event : string).

(** The collaborators' answers.  The record store and the mailer catch
    their own errors ([None], [False]); an emit may raise. *)
Record Collaborators : Type := {
  save_threat : ThreatRecord -> option string;
  create_alert : option string -> ThreatRecord -> option string;
  send_threat_alert : ThreatRecord -> bool;
  emit : string -> res unit;
  insert_training_data : Sample -> res unit
}.

Record World : Type := {
  status : Status;
  requests : list request;
  training_data : training_store
}.

Definition action (A : Type) : Type := World -> World * res A.

#[global] Instance action_ret : MRet action := fun A a w => (w, Ok a).
#[global] Instance action_bind : MBind action := fun A B k m w =>
  match m w with
  | (w', Ok a) => k a w'
  | (w', Raise e) => (w', Raise e)
  end.

(** A request is recorded, then answered. *)
Definition ask {A} (r : request) (answer : res A) : action A :=
  fun w => ({| status := status w; requests := requests w ++ [r];
               training_data := training_data w |}, answer).

Definition count_threat (now : string) : action unit :=
  fun w => ({| status := {| threatsDetected := threatsDetected (status w) + 1;
                            activeIncidents := activeIncidents (status w) + 1;
                            lastUpdate := now |};
               requests := requests w;
               training_data := training_data w |}, Ok tt).

Definition learn (env : Env) (svc : Services) (col : Collaborators)
    (packet_data : packet) (a : analysis) : action unit :=
  fun w => ({| status := status w; requests := requests w;
               training_data :=
                 learn_from_detection env svc (insert_training_data col)
                   (training_data w) packet_data a |}, Ok tt).

Definition lift {A} (r : res A) : action A := fun w => (w, r).

(** The [try] block of [handle_packet_captured]. *)
Definition handler_try_block (env : Env) (svc : Services) (col : Collaborators)
    (self : detector) (packet_data : packet) : action unit :=
  a ← lift (analyze_packet env self packet_data);
  match isThreat a, threat a with
  | true, Some t =>
      _ ← count_threat (now_isoformat env);
      threat_id ← ask (SaveThreat t) (Ok (save_threat col t));
      _ ← (if bool_decide (th_severity t ∈ ["Critical"; "High"])
           then
             alert_id ← ask (CreateAlert threat_id t) (Ok (create_alert col threat_id t));
             email_sent ← ask (SendThreatAlert t) (Ok (send_threat_alert col t));
             _ ← (if (email_sent : bool)
                  then ask (MarkAlertEmailSent alert_id) (Ok tt)
                  else mret tt);
             ask (Emit "new_alert") (emit col "new_alert")
           else mret tt);
      _ ← ask (Emit "new_threat") (emit col "new_threat");
      _ ← ask (Emit "system_status") (emit col "system_status");
      high ← lift (exceeds_0_9 (confidence a));
      if (high : bool) then learn env svc col packet_data a else mret tt
  | _, _ => mret tt
  end.

(** [handle_packet_captured]: whatever is raised is logged; the world is
    as the block left it. *)
Definition handle_packet_captured (env : Env) (svc : Services) (col : Collaborators)
    (self : detector) (packet_data : packet) (w : World) : World :=
  (handler_try_block env svc col self packet_data w).1.

End App.

(** ** Vocabulary of the statements

    The derivations of the design document (section 4.1), written on typed
    data, and the predicates the properties below are stated with. *)

Module Spec.
Import Py ThreatDetector.

(** Protocol code: TCP 6, UDP 17, ICMP 1, else 0.  The three names count
    in any letter case; the spellings are listed. *)
Definition spellings_TCP : list string :=
  ["TCP"; "TCp"; "TcP"; "Tcp"; "tCP"; "tCp"; "tcP"; "tcp"].

Definition spellings_UDP : list string :=
  ["UDP"; "UDp"; "UdP"; "Udp"; "uDP"; "uDp"; "udP"; "udp"].

Definition spellings_ICMP : list string :=
  ["ICMP"; "ICMp"; "ICmP"; "ICmp"; "IcMP"; "IcMp"; "IcmP"; "Icmp"; "iCMP";
   "iCMp"; "iCmP"; "iCmp"; "icMP"; "icMp"; "icmP"; "icmp"].

Definition protocol_code (name : string) : Z :=
  if bool_decide (name ∈ spellings_TCP) then 6
  else if bool_decide (name ∈ spellings_UDP) then 17
  else if bool_decide (name ∈ spellings_ICMP) then 1
  else 0.

(** Destination-port category: below 1024 well-known, below 49152
    registered, else dynamic. *)
Definition port_category (port : Z) : Z :=
  if port <? 1024 then 1 else if port <? 49152 then 2 else 3.

Definition size_category (size : Z) : Z :=
  if size <? 64 then 1 else if size <? 512 then 2 else if size <? 1024 then 3 else 4.

(** The private ranges, by prefix: 10.x, 192.168.x, 172.16.x to 172.31.x. *)
Definition private_range (ip : string) : Prop :=
  String.prefix "10." ip = true
  \/ String.prefix "192.168." ip = true
  \/ exists n, 16 <= n <= 31 /\ String.prefix ("172." +:+ pretty n +:+ ".") ip = true.

(** Locality: 0 for an empty address, 1 for a private one, 2 otherwise. *)
Definition locality (ip : string) (code : Z) : Prop :=
  (ip = "" /\ code = 0)
  \/ (ip <> "" /\ private_range ip /\ code = 1)
  \/ (ip <> "" /\ ~ private_range ip /\ code = 2).

(** The typed reading of a packet: an integer field (0 when absent), a
    text field (empty when absent), the hour of its timestamp (the
    clock's when absent). *)
Definition int_field (packet_data : packet) (k : string) : Z :=
  match packet_data !! k with
  | Some (VInt z) => z
  | _ => 0
  end.

Definition text_field (packet_data : packet) (k : string) : string :=
  match packet_data !! k with
  | Some (VStr s) => s
  | _ => ""
  end.

Definition hour_of (env : Env) (packet_data : packet) : Z :=
  match packet_data !! "timestamp" with
  | Some (VStr s) =>
      match fromisoformat_hour env (replace_char "Z"%char "+00:00" s) with
      | Ok h => h
      | Raise _ => 0
      end
  | _ => now_hour env
  end.

Definition absent_or_int (packet_data : packet) (k : string) : Prop :=
  packet_data !! k = None \/ exists z, packet_data !! k = Some (VInt z).

Definition absent_or_text (packet_data : packet) (k : string) : Prop :=
  packet_data !! k = None \/ exists s, packet_data !! k = Some (VStr s).

(** A packet observation as the capture loop builds it, any field
    possibly absent: integer size and ports, textual protocol and
    addresses, an ISO timestamp the interpreter can read back. *)
Definition observation (env : Env) (packet_data : packet) : Prop :=
  absent_or_int packet_data "packetSize"
  /\ absent_or_int packet_data "sourcePort"
  /\ absent_or_int packet_data "destinationPort"
  /\ absent_or_text packet_data "protocol"
  /\ absent_or_text packet_data "sourceIP"
  /\ absent_or_text packet_data "destinationIP"
  /\ (packet_data !! "timestamp" = None
      \/ exists s h, packet_data !! "timestamp" = Some (VStr s)
                     /\ fromisoformat_hour env (replace_char "Z"%char "+00:00" s) = Ok h).



(** A number that is not NaN. *)
Definition clean (v : val) : Prop :=
  match v with
  | VInt _ => True
  | VFloat f => PrimFloat.is_nan f = false
  | VNone | VStr _ => False
  end.

(** A sample as training expects it: nine numbers, none NaN. *)
Definition nine_clean_features (s : Sample) : Prop :=
  length (features s) = 9%nat /\ Forall clean (features s).

(** A feature vector with a NaN among its entries. *)
Definition holds_nan (fs : list val) : bool :=
  existsb (fun v => match v with
                    | VFloat f => PrimFloat.is_nan f
                    | _ => false
                    end) fs.

(** A row the import keeps: its extracted features hold no NaN. *)
Definition retained (env : Env) (r : Row) : bool :=
  negb (holds_nan (extract_features_from_csv_row env r).2).

(** The sample the import builds from a row and its features. *)
Definition sample_from (fs : list val) (r : Row) : Sample :=
  {| features := fs; label := threat_type r; raw_data := r |}.

(** The rows whose label is in the closed set. *)
Definition valid_rows (rows : list Row) : list Row :=
  filter (fun r => is_valid_threat (threat_type r) = true) rows.

(** The samples a run trains on: the ones passed, or the stored ones. *)
Definition samples_used (svc : Services) (training_data : option (list Sample))
  : list Sample :=
  match training_data with
  | Some training_data => training_data
  | None => get_all_training_data svc
  end.

(** [maintains P m Q]: run from attributes satisfying [P], the method [m]
    leaves attributes satisfying [P] whatever its outcome, and a returned
    value satisfies [Q]. *)
Definition maintains {A} (P : detector -> Prop) (m : method A) (Q : A -> Prop) : Prop :=
  forall self, P self ->
    P (m self).1 /\ forall a, (m self).2 = Ok a -> Q a.

(** [on_failure P m]: when [m], run from attributes satisfying [P],
    raises, the attributes it leaves satisfy [P]. *)
Definition on_failure {A} (P : detector -> Prop) (m : method A) : Prop :=
  forall self, P self -> forall e, (m self).2 = Raise e -> P (m self).1.

(** [returns_from self m Q]: when [m], run from the attributes [self],
    returns a value, the value and the attributes it leaves satisfy [Q]. *)
Definition returns_from {A} (self : detector) (m : method A)
    (Q : A -> detector -> Prop) : Prop :=
  forall a, (m self).2 = Ok a -> Q a (m self).1.

(** The detector after a series of training requests, each with its own
    clock, collaborators and data. *)
Definition train_runs (runs : list (Env * Services * option (list Sample)))
    (self : detector) : detector :=
  foldl (fun self '(env, svc, training_data) =>
           (train_model env svc training_data self).1) self runs.

(** What holds of the monitor when no call is in progress. *)
Definition buffer_bounded (self : NetworkMonitor.monitor) : Prop :=
  NetworkMonitor.buffer_size self = 1000
  /\ (length (NetworkMonitor.packet_buffer self) <= 1000)%nat.

(** The calls that have appended and not yet finished with the buffer. *)
Definition in_flight (loops : list NetworkMonitor.call_state) : nat :=
  length (filter (fun at_ => NetworkMonitor.updating at_ = true) loops).

(** What holds of a capture of [n] loops at every moment. *)
Definition capture_bounded (n : nat) (c : NetworkMonitor.capture) : Prop :=
  NetworkMonitor.buffer_size (NetworkMonitor.shared c) = 1000
  /\ length (NetworkMonitor.loops c) = n
  /\ (length (NetworkMonitor.packet_buffer (NetworkMonitor.shared c))
      <= 1000 + in_flight (NetworkMonitor.loops c))%nat.

(** The bound of the design document on [n] capture loops: whenever a
    call of [handle_packet] returns, the buffer holds at most 1000
    packets. *)
Definition bounded_after_every_call (n : nat) : Prop :=
  forall (schedule : list NetworkMonitor.turn) (i : nat)
         (p next : NetworkMonitor.packet),
    let c := NetworkMonitor.interleaving
               (NetworkMonitor.start_monitoring NetworkMonitor.init n) schedule in
    NetworkMonitor.loops c !! i = Some (NetworkMonitor.Handling p) ->
    (length (NetworkMonitor.packet_buffer
               (NetworkMonitor.shared (NetworkMonitor.take_turn c (i, next))))
     <= 1000)%nat.

End Spec.

(** ** Test doubles

    Concrete collaborators and inputs for the examples below: a clock
    stopped at 14h, parsers that know a few strings, a scaler that converts
    without scaling and a forest that always answers [Port_Scan] with
    probability 0.95. *)

Module Fixtures.
Import Py ThreatDetector.

(** Unsigned decimal numerals. *)
Definition decimal (s : string) : res Z :=
  if isdigit s
  then Ok (foldl (fun n c => 10 * n + (Z.of_N (Ascii.N_of_ascii c) - 48)) 0
             (String.list_ascii_of_string s))
  else Raise (ValueError "invalid literal for int() with base 10").

Definition env : Env := {|
  int_of_str := decimal;
  float_of_str := fun s =>
    if String.eqb s "22" then Ok 22%float
    else Raise (ValueError "could not convert string to float");
  str_of_float := fun _ => "0.5";
  fromisoformat_hour := fun s =>
    if String.eqb s "2024-05-01T09:30:00" then Ok 9
    else if String.eqb s "2024-05-01T14:00:00" then Ok 14
    else Raise (ValueError "Invalid isoformat string");
  now_hour := 14;
  now_isoformat := "2024-05-01T14:00:00";
  uuid4 := "00000000-0000-4000-8000-000000000000";
  format_2f := fun _ => "100.00"
|}.

Definition fitted_scaler : Scaler := {| transform := mapM np_float |}.

Definition fitted_forest : Classifier := {|
  predict := fun _ => Ok 6;
  predict_proba := fun _ => Ok [0; 0; 0; 0; 0.05; 0; 0.95]%float
|}.

Definition unfitted_scaler : Scaler :=
  {| transform := fun _ => Raise (LibraryError "NotFittedError") |}.

Definition unfitted_forest : Classifier := {|
  predict := fun _ => Raise (LibraryError "NotFittedError");
  predict_proba := fun _ => Raise (LibraryError "NotFittedError")
|}.

Definition services : Services := {|
  Database := Ok tt;
  get_all_training_data := [];
  train_test_split := fun X y => Ok (take 8 X, drop 8 X, take 8 y, drop 8 y);
  StandardScaler := unfitted_scaler;
  fit_transform := fun X => Ok (fitted_scaler, X);
  RandomForestClassifier := unfitted_forest;
  fit := fun _ _ => Ok fitted_forest;
  classification_report := fun _ _ => Ok "report"
|}.

(** size=40, srcPort=4444, dstPort=22, protocol=tcp *)
Definition ssh_probe : packet :=
  <["packetSize" := VInt 40]>
  (<["sourcePort" := VInt 4444]>
  (<["destinationPort" := VInt 22]>
  (<["protocol" := VStr "tcp"]>
  (<["sourceIP" := VStr "172.31.0.9"]>
  (<["destinationIP" := VStr "8.8.8.8"]>
  (<["timestamp" := VStr "2024-05-01T09:30:00"]> ∅)))))).

Definition scan_row : Row := {|
  source_ip := VStr "10.0.0.1"; dest_ip := VStr "8.8.8.8";
  source_port := VInt 4444; dest_port := VInt 22;
  protocol := VStr "TCP"; packet_size := VInt 40;
  duration := VFloat 0.5; threat_type := VStr "Port_Scan"
|}.

Definition normal_row : Row := {|
  source_ip := VStr "192.168.1.7"; dest_ip := VStr "192.168.1.1";
  source_port := VInt 50000; dest_port := VInt 443;
  protocol := VStr "TCP"; packet_size := VInt 900;
  duration := VFloat 0.5; threat_type := VStr "Normal"
|}.

Definition foo_row : Row := {|
  source_ip := VStr "10.0.0.1"; dest_ip := VStr "8.8.8.8";
  source_port := VInt 4444; dest_port := VFloat nan;
  protocol := VStr "UDP"; packet_size := VInt 40;
  duration := VFloat 0.5; threat_type := VStr "Foo"
|}.

Definition sample_of (r : Row) : Sample :=
  {| features := zero_features; label := threat_type r; raw_data := r |}.

Definition ten_samples : list Sample :=
  replicate 5 (sample_of normal_row) ++ replicate 5 (sample_of scan_row).

Definition trained : detector :=
  {| model := Some fitted_forest; scaler := Some fitted_scaler;
     is_trained := true; model_version := 2; total_samples_trained := 10;
     last_training_date := Some "2024-05-01T14:00:00";
     training_history := []; threat_threshold := default_threat_threshold |}.

Definition ssh_probe_features : list val :=
  [VInt 40; VInt 4444; VInt 22; VInt 6; VInt 9; VInt 1; VInt 1; VInt 1; VInt 2].

(** The record the trained detector builds for [ssh_probe], and its
    answer. *)
Definition ssh_probe_threat : ThreatRecord := {|
  th_id := uuid4 env;
  th_timestamp := VStr "2024-05-01T09:30:00";
  th_type := get_threat_type "Port_Scan";
  th_severity := get_severity "Port_Scan" 0.95;
  th_source := VStr "172.31.0.9";
  th_destination := VStr "8.8.8.8";
  th_sourcePort := VInt 4444;
  th_destinationPort := VInt 22;
  th_protocol := VStr "tcp";
  th_packetSize := VInt 40;
  th_description := get_threat_description env "Port_Scan" ssh_probe;
  th_classification := "Port_Scan";
  th_confidence := 0.95;
  th_networkInterface := VStr "Unknown";
  th_rawPacketData := ssh_probe;
  th_features := ssh_probe_features
|}.

Definition ssh_probe_answer : analysis :=
  {| classification := "Port_Scan"; confidence := VFloat 0.95;
     threat := Some ssh_probe_threat; isThreat := true |}.

(** A run on the ten samples, and one on nine of them, from a fresh
    detector. *)
Definition ten_sample_run : detector * res TrainResult :=
  train_model env services (Some ten_samples) (init default_threat_threshold).

Definition ten_sample_result : TrainResult :=
  {| success := true; samplesProcessed := 10; accuracy := "100.00";
     version := 2; epochs := "N/A (Random Forest)" |}.

Definition nine_sample_run : detector * res TrainResult :=
  train_model env services (Some (take 9 ten_samples)) (init default_threat_threshold).




(** Two capture loops: loop 0 handles a thousand packets alone, then
    appends one more; loop 1 appends another before loop 0 tests the
    length; loop 0 tests and pops. *)
Definition overlapping_calls : list NetworkMonitor.turn :=
  concat (replicate 1000 (replicate 3 (0%nat, ssh_probe)))
  ++ [(0%nat, ssh_probe); (1%nat, ssh_probe); (0%nat, ssh_probe); (0%nat, ssh_probe)].

(** A disk without artifact. *)
Definition empty_disk : Disk :=
  {| model_file := Absent; scaler_file := Absent; metadata_file := Absent |}.

(** A table of two rows, one of them labelled Foo, and the sample the
    import makes of the other. *)
Definition scan_table : DataFrame :=
  {| columns := required_columns; rows := [scan_row; foo_row] |}.

Definition scan_sample : Sample :=
  {| features := [VFloat 40; VFloat 4444; VFloat 22;
                  VInt 6; VInt 14; VInt 1; VInt 1; VInt 1; VInt 2];
     label := VStr "Port_Scan"; raw_data := scan_row |}.

(** The line of the parser's own comment, and the packet it gives on
    [eth0]. *)
Definition sample_line : string := "IP 192.168.1.100.52345 > 8.8.8.8.53: UDP, length 32".
Definition sample_packet : packet :=
  <["id" := VStr "00000000-0000-4000-8000-000000000000"]>
  (<["timestamp" := VStr "2024-05-01T14:00:00"]>
  (<["sourceIP" := VStr "192.168.1.100"]>
  (<["sourcePort" := VInt 52345]>
  (<["destinationIP" := VStr "8.8.8.8"]>
  (<["destinationPort" := VInt 53]>
  (<["protocol" := VStr "udp,"]>
  (<["packetSize" := VInt 32]>
  (<["networkInterface" := VStr "eth0"]>
  (<["rawLine" := VStr sample_line]> ∅))))))))).

(** Ten samples of three features each. *)
Definition narrow_samples : list Sample :=
  replicate 10 {| features := [VInt 40; VInt 4444; VInt 22];
                  label := VStr "Normal"; raw_data := normal_row |}.

End Fixtures.

(** * Properties *)

Import Py Spec.

(** ** Bookkeeping lemmas on the error monad *)

Lemma bind_Ok {A B} (m : res A) (k : A -> res B) (b : B) :
  m ≫= k = Ok b -> exists a, m = Ok a /\ k a = Ok b.
Proof. destruct m as [a|e]; simpl; [eauto | discriminate]. Qed.

Lemma bind_Raise {A B} (m : res A) (k : A -> res B) (e : exn) :
  m ≫= k = Raise e -> m = Raise e \/ exists a, m = Ok a /\ k a = Raise e.
Proof. destruct m as [a|e']; simpl; [eauto | intros [= ->]; by left]. Qed.

Lemma try_except_total {A} (body : res A) (h : exn -> A) :
  exists a, try_except body (fun e => Ok (h e)) = Ok a.
Proof. destruct body; simpl; eauto. Qed.

(** ** Severity *)

Section Severity.
Import ThreatDetector.

Lemma create_threat_record_Some env packet_data classification confidence features :
  exists rec,
    create_threat_record env packet_data classification confidence features
      = Ok (Some rec)
    /\ th_severity rec = get_severity classification confidence
    /\ th_confidence rec = confidence
    /\ th_classification rec = classification.
Proof. eexists; repeat split. Qed.

(** C2: whenever a threat record is created its severity depends on the
    confidence alone (two records built from any packets, labels and
    feature vectors but the same confidence carry the same severity), and
    follows the table: above 0.9 Critical, else above 0.8 High, else above
    0.7 Medium, else Low.  At the boundaries 0.9001 is Critical, 0.9 is
    High and 0.8 is Medium. *)
Theorem severity_is_function_of_confidence :
  forall (env : Env) (packet_data : packet) (classification : string)
         (confidence : float) (features : list val),
    exists rec,
      create_threat_record env packet_data classification confidence features
        = Ok (Some rec)
      /\ (forall env' packet_data' classification' features' rec',
            create_threat_record env' packet_data' classification' confidence features'
              = Ok (Some rec') ->
            th_severity rec' = th_severity rec)
      /\ ((0.9 <? confidence)%float = true -> th_severity rec = "Critical")
      /\ ((0.9 <? confidence)%float = false -> (0.8 <? confidence)%float = true ->
          th_severity rec = "High")
      /\ ((0.9 <? confidence)%float = false -> (0.8 <? confidence)%float = false ->
          (0.7 <? confidence)%float = true -> th_severity rec = "Medium")
      /\ ((0.9 <? confidence)%float = false -> (0.8 <? confidence)%float = false ->
          (0.7 <? confidence)%float = false -> th_severity rec = "Low")
      /\ get_severity classification 0.9001 = "Critical"
      /\ get_severity classification 0.9 = "High"
      /\ get_severity classification 0.8 = "Medium".
Proof.
  intros env packet_data classification confidence features.
  destruct (create_threat_record_Some env packet_data classification confidence features)
    as (rec & Hrec & Hsev & _).
  exists rec. split; [exact Hrec|]. rewrite Hsev.
  split.
  { intros env' packet_data' classification' features' rec' Hrec'.
    destruct (create_threat_record_Some env' packet_data' classification' confidence features')
      as (rec2 & Hrec2 & Hsev2 & _).
    rewrite Hrec' in Hrec2. injection Hrec2 as <-. by rewrite Hsev2. }
  unfold get_severity.
  repeat split; try (intros; repeat match goal with H : _ = _ |- _ => rewrite H end; reflexivity).
Qed.

End Severity.

(** ** Port and size categories *)

Section Categories.
Import ThreatDetector.


(** A table row with an empty destination-port cell: the raw feature is 0
    and the port category is 0 too, not the category 1 of port 0. *)
Example empty_port_cell_features :
  extract_features_from_csv_row Fixtures.env Fixtures.foo_row
  = ([], [VFloat 40; VFloat 4444; VInt 0; VInt 17; VInt 14;
          VInt 0; VInt 1; VInt 1; VInt 2]).
Proof. vm_compute. reflexivity. Qed.

End Categories.

(** ** Classification of one packet *)

Section Analysis.
Import ThreatDetector.

(** No double is strictly below itself (NaN included). *)
Lemma SFltb_irrefl (x : spec_float) : SFltb x x = false.
Proof.
  unfold SFltb, SFcompare.
  destruct x as [[]|[]| |[] m e]; try reflexivity;
    rewrite Z.compare_refl, Pos.compare_cont_refl; reflexivity.
Qed.

Lemma float_ltb_irrefl (x : float) : (x <? x)%float = false.
Proof. rewrite ltb_spec. apply SFltb_irrefl. Qed.

Lemma analyze_packet_untrained env self packet_data :
  is_trained self = false \/ model self = None ->
  analyze_packet env self packet_data = Ok unknown_result.
Proof.
  intros [H|H]; unfold analyze_packet; rewrite H; simpl; [done|].
  by rewrite orb_true_r.
Qed.

Lemma analyze_packet_trained env self packet_data :
  is_trained self = true -> model self <> None ->
  analyze_packet env self packet_data
    = try_except (analyze_try_block env self packet_data) (fun _ => Ok error_result).
Proof.
  intros Ht Hm. unfold analyze_packet. rewrite Ht.
  destruct (model self); [done | congruence].
Qed.

(** C3: without a loaded model (the detector is not marked trained, or
    holds no model) every packet is answered Unknown with confidence 0.5,
    not a threat, and no threat record. *)
Theorem untrained_detector_answers_unknown :
  forall (env : Env) (self : detector) (packet_data : packet),
    is_trained self = false \/ model self = None ->
    exists r,
      analyze_packet env self packet_data = Ok r
      /\ classification r = "Unknown"
      /\ confidence r = VFloat 0.5
      /\ isThreat r = false
      /\ threat r = None.
Proof.
  intros env self packet_data H. exists unknown_result.
  split; [by apply analyze_packet_untrained | done].
Qed.

Lemma untrained_detector_answers_unknown_witness :
  exists r,
    analyze_packet Fixtures.env (init default_threat_threshold) Fixtures.ssh_probe = Ok r
    /\ classification r = "Unknown"
    /\ confidence r = VFloat 0.5
    /\ isThreat r = false
    /\ threat r = None.
Proof.
  apply (untrained_detector_answers_unknown Fixtures.env
           (init default_threat_threshold) Fixtures.ssh_probe).
  left. reflexivity.
Defined.

(** C1: on a trained detector, when the pipeline yields a predicted label
    and its confidence, the answer carries them and flags a threat exactly
    when the label is not Normal and the confidence is strictly above the
    configured threshold; a confidence equal to the threshold is not a
    threat. *)
Theorem threat_flag_iff_label_and_threshold :
  forall (env : Env) (self : detector) (packet_data : packet)
         (features : list val) (label : string) (conf : float),
    is_trained self = true ->
    model self <> None ->
    classify env self packet_data = Ok (features, label, conf) ->
    exists r,
      analyze_packet env self packet_data = Ok r
      /\ classification r = label
      /\ confidence r = VFloat conf
      /\ (isThreat r = true <->
          label <> "Normal" /\ (threat_threshold self <? conf)%float = true)
      /\ (conf = threat_threshold self -> isThreat r = false).
Proof.
  intros env self packet_data features label conf Ht Hm Hc.
  rewrite analyze_packet_trained by done.
  unfold analyze_try_block. rewrite Hc. simpl.
  destruct (create_threat_record_Some env packet_data label conf features)
    as (rec & Hrec & _).
  assert (Hiff : is_threat_of self label conf = true <->
                 label <> "Normal" /\ (threat_threshold self <? conf)%float = true).
  { unfold is_threat_of. rewrite andb_true_iff, negb_true_iff.
    rewrite String.eqb_neq. tauto. }
  destruct (is_threat_of self label conf) eqn:E.
  - rewrite Hrec. simpl. eexists. split; [reflexivity|]. simpl.
    repeat split; try tauto.
    intros ->. rewrite float_ltb_irrefl in Hiff.
    destruct Hiff as [Hiff _]. destruct Hiff as [_ ?]; [done | discriminate].
  - simpl. eexists. split; [reflexivity|]. simpl.
    repeat split; try tauto; try discriminate.
Qed.

Lemma threat_flag_iff_label_and_threshold_witness :
  exists r,
    analyze_packet Fixtures.env Fixtures.trained Fixtures.ssh_probe = Ok r
    /\ classification r = "Port_Scan"
    /\ confidence r = VFloat 0.95
    /\ (isThreat r = true <->
        "Port_Scan" <> "Normal"
        /\ (threat_threshold Fixtures.trained <? 0.95)%float = true)
    /\ (0.95%float = threat_threshold Fixtures.trained -> isThreat r = false).
Proof.
  apply (threat_flag_iff_label_and_threshold Fixtures.env Fixtures.trained
           Fixtures.ssh_probe
           [VInt 40; VInt 4444; VInt 22; VInt 6; VInt 9; VInt 1; VInt 1; VInt 1; VInt 2]
           "Port_Scan" 0.95%float).
  - reflexivity.
  - discriminate.
  - vm_compute. reflexivity.
Defined.

(** Under the default threshold, a Port_Scan predicted with confidence
    exactly 0.7 is not a threat, and is one with the next double above. *)
Example confidence_at_default_threshold :
  let forest c := {| predict := fun _ => Ok 6;
                     predict_proba := fun _ => Ok [0; 0; 0; 0; 0; 0; c]%float |} in
  let ask c := analyze_packet Fixtures.env
                 (set_model (Some (forest c)) Fixtures.trained) Fixtures.ssh_probe in
  (exists r, ask 0.7%float = Ok r /\ classification r = "Port_Scan"
             /\ isThreat r = false /\ threat r = None)
  /\ (exists r, ask (next_up 0.7)%float = Ok r /\ classification r = "Port_Scan"
                /\ isThreat r = true /\ is_Some (threat r)).
Proof.
  split; eexists; (split; [vm_compute; reflexivity|]); repeat split; eauto.
Qed.

(** The [try] block raises exactly when the pipeline up to the
    confidence does: building the answer cannot fail. *)
Lemma analyze_try_block_Raise env self packet_data e :
  analyze_try_block env self packet_data = Raise e
  <-> classify env self packet_data = Raise e.
Proof.
  unfold analyze_try_block.
  destruct (classify env self packet_data) as [[[features label] conf]|e']; simpl.
  - destruct (create_threat_record_Some env packet_data label conf features)
      as (rec & Hrec & _).
    destruct (is_threat_of self label conf); [rewrite Hrec|]; simpl; split; discriminate.
  - split; intros [= ->]; reflexivity.
Qed.

(** C7: [analyze_packet] always returns an answer, it never raises; and on
    a trained detector, whenever anything inside the [try] block raises,
    the answer is the neutral one: label Error, confidence 0, not a
    threat. *)
Theorem analyze_packet_never_raises :
  forall (env : Env) (self : detector) (packet_data : packet),
    (exists r, analyze_packet env self packet_data = Ok r)
    /\ (forall e,
          is_trained self = true -> model self <> None ->
          analyze_try_block env self packet_data = Raise e ->
          exists r,
            analyze_packet env self packet_data = Ok r
            /\ classification r = "Error"
            /\ confidence r = VInt 0
            /\ isThreat r = false
            /\ threat r = None).
Proof.
  intros env self packet_data. split.
  - unfold analyze_packet.
    destruct (negb (is_trained self) || is_None (model self)); [eauto|].
    apply (try_except_total _ (fun _ => error_result)).
  - intros e Ht Hm He. exists error_result.
    rewrite analyze_packet_trained, He by done. done.
Qed.

(** A scaler that was never fitted makes every classification fail; the
    caller still gets an answer. *)
Example unfitted_scaler_gives_error_result :
  let self := set_scaler (Some Fixtures.unfitted_scaler) Fixtures.trained in
  raises (analyze_try_block Fixtures.env self Fixtures.ssh_probe)
  /\ analyze_packet Fixtures.env self Fixtures.ssh_probe = Ok error_result.
Proof. split; [eexists|]; vm_compute; reflexivity. Qed.

End Analysis.

(** ** The packet buffer *)

Section PacketBuffer.
Import NetworkMonitor.

Lemma init_bounded : buffer_bounded init.
Proof. split; [reflexivity | simpl; lia]. Qed.

Lemma set_packet_handler_bounded h self :
  buffer_bounded self -> buffer_bounded (set_packet_handler h self).
Proof. intros [? ?]. split; assumption. Qed.

Lemma handle_packet_buffer self p :
  buffer_bounded self ->
  buffer_size (handle_packet self p).1 = 1000
  /\ packet_buffer (handle_packet self p).1
     = if (length (packet_buffer self) =? 1000)%nat
       then drop 1 (packet_buffer self) ++ [p]
       else packet_buffer self ++ [p].
Proof.
  intros [Hsize Hlen]. unfold handle_packet. simpl.
  rewrite Hsize, length_app. simpl.
  destruct (Nat.eqb_spec (length (packet_buffer self)) 1000) as [Heq|Hne].
  - rewrite Heq. simpl. split; [assumption|].
    unfold pop0. destruct (packet_buffer self); [discriminate | reflexivity].
  - destruct (Z.ltb_spec 1000 (Z.of_nat (length (packet_buffer self) + 1))) as [Hlt|_];
      [lia|]. split; [assumption | reflexivity].
Qed.

Lemma handle_packet_bounded self p :
  buffer_bounded self -> buffer_bounded (handle_packet self p).1.
Proof.
  intros Hb. destruct (handle_packet_buffer self p Hb) as [Hsize Hbuf].
  split; [assumption|]. rewrite Hbuf. destruct Hb as [_ Hlen].
  destruct (Nat.eqb_spec (length (packet_buffer self)) 1000) as [Heq|Hne];
    rewrite length_app; [rewrite length_drop|]; simpl; lia.
Qed.

Lemma handle_packet_returns self p : (handle_packet self p).2 = Ok tt.
Proof.
  unfold handle_packet. simpl.
  match goal with |- try_except ?b _ = _ => destruct b as [[]|] end; reflexivity.
Qed.

(** The loops of a capture *)

Lemma in_flight_cons at_ l :
  in_flight (at_ :: l) = ((if updating at_ then 1 else 0) + in_flight l)%nat.
Proof.
  unfold in_flight. rewrite filter_cons.
  destruct (updating at_); by case_decide.
Qed.

Lemma in_flight_insert l : forall i at_ at',
  l !! i = Some at_ ->
  (in_flight (<[i := at']> l) + (if updating at_ then 1 else 0)
   = in_flight l + (if updating at' then 1 else 0))%nat.
Proof.
  induction l as [|a l IH]; intros i at_ at' Hi; [done|].
  destruct i as [|i]; simpl in *.
  - injection Hi as ->. rewrite !in_flight_cons. lia.
  - rewrite !in_flight_cons. specialize (IH i at_ at' Hi). lia.
Qed.

Lemma in_flight_others l : forall i at_,
  l !! i = Some at_ -> updating at_ = false ->
  (in_flight l <= length l - 1)%nat.
Proof.
  assert (Hle : forall l', (in_flight l' <= length l')%nat)
    by (intros l'; apply length_filter).
  induction l as [|a l IH]; intros i at_ Hi Hu; [done|].
  destruct i as [|i]; simpl in *; rewrite in_flight_cons.
  - injection Hi as ->. rewrite Hu. specialize (Hle l). lia.
  - specialize (IH i at_ Hi Hu). apply lookup_lt_Some in Hi.
    destruct (updating a); lia.
Qed.

Lemma start_monitoring_bounded self n :
  buffer_bounded self -> capture_bounded n (start_monitoring self n).
Proof.
  intros [Hsize Hlen]. unfold capture_bounded, start_monitoring. simpl.
  rewrite length_replicate. repeat split; [assumption|lia].
Qed.

(** Whatever loop takes the next step, the buffer stays within 1000
    plus the calls that are between their append and their pop. *)
Lemma take_turn_bounded n c t :
  capture_bounded n c -> capture_bounded n (take_turn c t).
Proof.
  intros (Hsize & Hn & Hlen). unfold take_turn.
  destruct (loops c !! t.1) as [at_|] eqn:Hi; [|by repeat split].
  pose proof (in_flight_insert (loops c) t.1 at_) as Hins.
  destruct at_ as [|p|p|p]; simpl.
  - specialize (Hins (Appended t.2) Hi). simpl in Hins.
    repeat split; simpl; [assumption | by rewrite length_insert|].
    rewrite length_app. simpl. lia.
  - rewrite Hsize.
    destruct (Z.ltb_spec 1000 (Z.of_nat (length (packet_buffer (shared c))))).
    + specialize (Hins (Popping p) Hi). simpl in Hins.
      repeat split; simpl; [assumption | by rewrite length_insert | lia].
    + specialize (Hins (Handling p) Hi). simpl in Hins.
      repeat split; simpl; [assumption | by rewrite length_insert | lia].
  - destruct (packet_buffer (shared c)) as [|q buf] eqn:Hbuf; simpl.
    + specialize (Hins Idle Hi). simpl in Hins.
      repeat split; simpl; [assumption | by rewrite length_insert|].
      rewrite Hbuf. simpl. lia.
    + specialize (Hins (Handling p) Hi). simpl in Hins.
      repeat split; simpl; [assumption | by rewrite length_insert|].
      unfold pop0. simpl in *. rewrite drop_0. lia.
  - specialize (Hins Idle Hi). simpl in Hins.
    repeat split; simpl; [assumption | by rewrite length_insert | lia].
Qed.

Lemma interleaving_bounded n schedule : forall c,
  capture_bounded n c -> capture_bounded n (interleaving c schedule).
Proof.
  induction schedule as [|t schedule IH]; intros c Hc; [exact Hc|].
  apply IH, take_turn_bounded, Hc.
Qed.

Lemma interleaving_app c s1 s2 :
  interleaving c (s1 ++ s2) = interleaving (interleaving c s1) s2.
Proof. apply foldl_app. Qed.

(** A call no other loop steps into does what [handle_packet] does. *)
Lemma uninterrupted_call c i p :
  loops c !! i = Some Idle ->
  exists k, interleaving c (replicate k (i, p))
            = {| shared := (handle_packet (shared c) p).1; loops := loops c |}.
Proof.
  intros Hi. pose proof (lookup_lt_Some _ _ _ Hi) as Hlt.
  assert (Hback : forall a b d,
             <[i := Idle]> (<[i := a]> (<[i := b]> (<[i := d]> (loops c)))) = loops c).
  { intros a b d. rewrite !list_insert_insert_eq. by apply list_insert_id. }
  assert (Hback3 : forall a b,
             <[i := Idle]> (<[i := a]> (<[i := b]> (loops c))) = loops c).
  { intros a b. rewrite !list_insert_insert_eq. by apply list_insert_id. }
  unfold handle_packet. cbn [fst set_packet_buffer packet_buffer buffer_size].
  destruct (buffer_size (shared c)
            <? Z.of_nat (length (packet_buffer (shared c) ++ [p]))) eqn:Htest.
  - exists 4%nat. cbn [replicate interleaving foldl].
    unfold take_turn at 4. cbn [fst snd]. rewrite Hi. cbn [loop_step].
    unfold take_turn at 3. cbn [fst snd loops shared].
    rewrite list_lookup_insert_eq by done. cbn [loop_step buffer_size packet_buffer set_packet_buffer].
    rewrite Htest.
    unfold take_turn at 2. cbn [fst snd loops shared].
    rewrite list_lookup_insert_eq by (by rewrite length_insert).
    cbn [loop_step buffer_size packet_buffer set_packet_buffer].
    assert (Hne : nonempty (packet_buffer (shared c) ++ [p]) = true)
      by (by destruct (packet_buffer (shared c))).
    rewrite Hne.
    unfold take_turn. cbn [fst snd loops shared].
    rewrite list_lookup_insert_eq by (by rewrite !length_insert).
    cbn [loop_step]. by rewrite Hback.
  - exists 3%nat. cbn [replicate interleaving foldl].
    unfold take_turn at 3. cbn [fst snd]. rewrite Hi. cbn [loop_step].
    unfold take_turn at 2. cbn [fst snd loops shared].
    rewrite list_lookup_insert_eq by done. cbn [loop_step buffer_size packet_buffer set_packet_buffer].
    rewrite Htest.
    unfold take_turn. cbn [fst snd loops shared].
    rewrite list_lookup_insert_eq by (by rewrite length_insert).
    cbn [loop_step]. by rewrite Hback3.
Qed.

(** C9: with any number of capture loops on the shared buffer, at every
    moment of every interleaving the buffer holds at most 1000 packets
    plus one for each call that is between its append and its pop; so
    at most 1000 when no call is at that point, and at most 1000 + (n - 1)
    when a call returns.  A call that no other loop steps into does what
    [handle_packet] does on its own: the packet is appended, and the
    oldest entry is removed when the buffer was full.  With one loop,
    after every call the buffer holds at most 1000 packets. *)
Theorem packet_buffer_bounded_up_to_overlapping_calls :
  forall (n : nat) (handler : option (packet -> res unit)) (schedule : list turn),
    let start := match handler with
                 | Some h => set_packet_handler h init
                 | None => init
                 end in
    let c := interleaving (start_monitoring start n) schedule in
    (length (packet_buffer (shared c)) <= 1000 + in_flight (loops c))%nat
    /\ (in_flight (loops c) = 0%nat ->
        (length (packet_buffer (shared c)) <= 1000)%nat)
    /\ (forall i p next,
          loops c !! i = Some (Handling p) ->
          (length (packet_buffer (shared (take_turn c (i, next))))
           <= 1000 + (n - 1))%nat)
    /\ (forall i p,
          loops c !! i = Some Idle ->
          exists k,
            let c' := interleaving c (replicate k (i, p)) in
            loops c' = loops c
            /\ shared c' = (handle_packet (shared c) p).1
            /\ packet_buffer (shared c')
               = if (1000 <=? length (packet_buffer (shared c)))%nat
                 then drop 1 (packet_buffer (shared c)) ++ [p]
                 else packet_buffer (shared c) ++ [p])
    /\ bounded_after_every_call 1.
Proof.
  assert (Hreturn : forall n start schedule i p next,
            buffer_bounded start ->
            let c := interleaving (start_monitoring start n) schedule in
            loops c !! i = Some (Handling p) ->
            (length (packet_buffer (shared (take_turn c (i, next))))
             <= 1000 + (n - 1))%nat).
  { intros n start schedule i p next Hstart c Hi.
    destruct (interleaving_bounded n schedule _ (start_monitoring_bounded start n Hstart))
      as (_ & Hn & Hlen). fold c in Hn, Hlen.
    unfold take_turn. cbn [fst snd]. rewrite Hi. cbn [loop_step shared].
    pose proof (in_flight_others _ _ _ Hi eq_refl). lia. }
  intros n handler schedule start c.
  assert (Hstart : buffer_bounded start).
  { subst start. destruct handler;
      [apply set_packet_handler_bounded|]; apply init_bounded. }
  destruct (interleaving_bounded n schedule _ (start_monitoring_bounded start n Hstart))
    as (Hsize & Hn & Hlen). fold c in Hsize, Hn, Hlen.
  split; [exact Hlen|].
  split; [intros H0; rewrite H0 in Hlen; lia|].
  split; [intros i p next; by apply Hreturn|].
  split.
  - intros i p Hi. destruct (uninterrupted_call c i p Hi) as [k Hk].
    exists k. cbv zeta. rewrite Hk. cbn [loops shared].
    split; [reflexivity|]. split; [reflexivity|].
    unfold handle_packet. cbn [fst set_packet_buffer packet_buffer buffer_size].
    rewrite Hsize, length_app. cbn [length].
    destruct (Nat.leb_spec 1000 (length (packet_buffer (shared c)))) as [Hfull|Hroom].
    + destruct (Z.ltb_spec 1000 (Z.of_nat (length (packet_buffer (shared c)) + 1)));
        [|lia]. cbn [packet_buffer]. unfold pop0.
      destruct (packet_buffer (shared c)); [simpl in Hfull; lia | reflexivity].
    + destruct (Z.ltb_spec 1000 (Z.of_nat (length (packet_buffer (shared c)) + 1)));
        [lia | reflexivity].
  - intros schedule' i p next c' Hi.
    pose proof (Hreturn 1%nat init schedule' i p next init_bounded Hi) as H.
    rewrite Nat.sub_diag, Nat.add_0_r in H. exact H.
Qed.

(** Two loops: loop 1 appends between the append and the length test of
    loop 0, and when the call of loop 0 returns the buffer holds 1001
    packets. *)
Lemma overlapping_calls_exceed_the_capacity : ~ bounded_after_every_call 2.
Proof.
  intros H.
  specialize (H Fixtures.overlapping_calls 0%nat Fixtures.ssh_probe Fixtures.ssh_probe).
  cbv zeta in H.
  assert (Hat : loops (interleaving (start_monitoring init 2) Fixtures.overlapping_calls)
                !! 0%nat = Some (Handling Fixtures.ssh_probe))
    by (vm_compute; reflexivity).
  specialize (H Hat).
  assert (Hlen : length (packet_buffer (shared (take_turn
                   (interleaving (start_monitoring init 2) Fixtures.overlapping_calls)
                   (0%nat, Fixtures.ssh_probe)))) = 1001%nat)
    by (vm_compute; reflexivity).
  rewrite Hlen in H. lia.
Qed.

End PacketBuffer.

(** ** Training *)

Section Training.
Import ThreatDetector.

Lemma maintains_bind {A B} P (m : method A) (k : A -> method B) Q1 Q2 :
  maintains P m Q1 ->
  (forall a, Q1 a -> maintains P (k a) Q2) ->
  maintains P (m ≫= k) Q2.
Proof.
  intros Hm Hk self HP. destruct (Hm self HP) as [HP1 HQ1].
  unfold mbind, method_bind. destruct (m self) as [self1 [a|e]]; simpl in *.
  - apply (Hk a (HQ1 a eq_refl) self1 HP1).
  - split; [assumption | discriminate].
Qed.

Lemma maintains_weaken {A} P (m : method A) (Q Q' : A -> Prop) :
  maintains P m Q -> (forall a, Q a -> Q' a) -> maintains P m Q'.
Proof. intros Hm HQ self HP. destruct (Hm self HP). split; auto. Qed.

Lemma maintains_call {A} P (r : res A) : maintains P (call r) (fun _ => True).
Proof. intros self HP. split; [exact HP | done]. Qed.

Lemma maintains_raise {A} P e (Q : A -> Prop) : maintains P (raise e) Q.
Proof. intros self HP. split; [exact HP | discriminate]. Qed.

Lemma maintains_ret {A} P (a : A) (Q : A -> Prop) :
  Q a -> maintains P (mret a) Q.
Proof. intros HQ self HP. split; [exact HP | by intros ? [= <-]]. Qed.

Lemma maintains_assign P f :
  (forall self, P self -> P (f self)) -> maintains P (assign f) (fun _ => True).
Proof. intros Hf self HP. split; [by apply Hf | done]. Qed.

Lemma maintains_read {A} P (f : detector -> A) (Q : A -> Prop) :
  (forall self, P self -> Q (f self)) -> maintains P (read f) Q.
Proof. intros Hf self HP. split; [exact HP | intros ? [= <-]; by apply Hf]. Qed.

(** Everything after the first statement of [train_model] leaves the
    version alone, and a returned result reports it. *)
Lemma train_model_first_statement env svc training_data self :
  exists rest : method TrainResult,
    train_model env svc training_data self
      = rest (set_model_version (model_version self + 1) self)
    /\ forall v, maintains (fun s => model_version s = v) rest (fun r => version r = v).
Proof.
  eexists. split; [reflexivity|]. intros v.
  eapply maintains_bind with (Q1 := fun _ => True).
  { destruct training_data;
      (eapply maintains_bind; [apply maintains_call | intros; by apply maintains_ret]). }
  intros data _. cbv zeta.
  destruct (Z.of_nat (length data) <? 10); [apply maintains_raise|].
  eapply maintains_bind; [apply maintains_call|]. intros _ _.
  eapply maintains_bind; [apply maintains_call|]. intros d _.
  destruct (negb (d =? 9)); [apply maintains_raise|].
  eapply maintains_bind; [apply maintains_call|]. intros X _.
  eapply maintains_bind; [apply maintains_call|]. intros [[[X_train X_test] y_train] y_test] _.
  eapply maintains_bind; [by apply maintains_assign|]. intros _ _.
  eapply maintains_bind; [apply maintains_call|]. intros [sc X_train_scaled] _.
  eapply maintains_bind; [by apply maintains_assign|]. intros _ _.
  eapply maintains_bind; [apply maintains_call|]. intros X_test_scaled _.
  eapply maintains_bind; [apply maintains_call|]. intros y_train_encoded _.
  eapply maintains_bind; [apply maintains_call|]. intros y_test_encoded _.
  eapply maintains_bind; [by apply maintains_assign|]. intros _ _.
  eapply maintains_bind; [apply maintains_call|]. intros m _.
  eapply maintains_bind; [by apply maintains_assign|]. intros _ _.
  eapply maintains_bind; [apply maintains_call|]. intros y_pred _.
  eapply maintains_bind; [apply maintains_call|]. intros _ _.
  eapply maintains_bind; [by apply maintains_assign|]. intros _ _.
  eapply maintains_bind; [by apply maintains_assign|]. intros _ _.
  eapply maintains_bind with (Q1 := fun a => a = v);
    [by apply maintains_read|]. intros ? ->.
  by apply maintains_ret.
Qed.

(** C4: every call of [train_model] leaves the version counter exactly one
    above its value before the call, whether the run succeeds, is rejected
    for lack of samples, or fails anywhere else; a successful run reports
    that new version. *)
Theorem train_model_bumps_version :
  forall (env : Env) (svc : Services) (training_data : option (list Sample))
         (self : detector),
    model_version (train_model env svc training_data self).1 = model_version self + 1
    /\ (forall r, (train_model env svc training_data self).2 = Ok r ->
          version r = model_version self + 1).
Proof.
  intros env svc training_data self.
  destruct (train_model_first_statement env svc training_data self)
    as (rest & -> & Hrest).
  apply (Hrest (model_version self + 1)). reflexivity.
Qed.

(** C5: with fewer than 10 samples to train on, [train_model] raises, and
    the model and the scaler are the ones held before the call; when the
    record store could be opened, the exception is the validation error
    that names the shortage. *)
Theorem train_model_rejects_small_batches :
  forall (env : Env) (svc : Services) (training_data : option (list Sample))
         (self : detector),
    (length (samples_used svc training_data) < 10)%nat ->
    exists e,
      (train_model env svc training_data self).2 = Raise e
      /\ model (train_model env svc training_data self).1 = model self
      /\ scaler (train_model env svc training_data self).1 = scaler self
      /\ is_trained (train_model env svc training_data self).1 = is_trained self
      /\ (Database svc = Ok tt ->
          e = insufficient_training_data
                (Z.of_nat (length (samples_used svc training_data)))).
Proof.
  intros env svc training_data self Hlen.
  assert (Hlt : (Z.of_nat (length (samples_used svc training_data)) <? 10) = true)
    by (apply Z.ltb_lt; lia).
  unfold train_model, mbind, method_bind, assign, call, raise.
  destruct training_data as [data|]; simpl in *;
    (destruct (Database svc) as [[]|e0]; simpl;
     [rewrite Hlt; eexists; repeat split; reflexivity
     | exists e0; repeat split; discriminate]).
Qed.

Lemma train_model_rejects_small_batches_witness :
  exists e,
    (train_model Fixtures.env Fixtures.services
       (Some (take 9 Fixtures.ten_samples)) (init default_threat_threshold)).2 = Raise e
    /\ model (train_model Fixtures.env Fixtures.services
                (Some (take 9 Fixtures.ten_samples)) (init default_threat_threshold)).1
       = model (init default_threat_threshold)
    /\ scaler (train_model Fixtures.env Fixtures.services
                 (Some (take 9 Fixtures.ten_samples)) (init default_threat_threshold)).1
       = scaler (init default_threat_threshold)
    /\ is_trained (train_model Fixtures.env Fixtures.services
                     (Some (take 9 Fixtures.ten_samples)) (init default_threat_threshold)).1
       = is_trained (init default_threat_threshold)
    /\ (Database Fixtures.services = Ok tt ->
        e = insufficient_training_data
              (Z.of_nat (length (samples_used Fixtures.services
                                   (Some (take 9 Fixtures.ten_samples)))))).
Proof.
  apply (train_model_rejects_small_batches Fixtures.env Fixtures.services
           (Some (take 9 Fixtures.ten_samples)) (init default_threat_threshold)).
  simpl. lia.
Defined.

Lemma on_failure_bind {A B} P (m : method A) (k : A -> method B) :
  maintains P m (fun _ => True) ->
  (forall a, on_failure P (k a)) ->
  on_failure P (m ≫= k).
Proof.
  intros Hm Hk self HP e. destruct (Hm self HP) as [HP1 _].
  unfold mbind, method_bind. destruct (m self) as [self1 [a|e']]; simpl in *.
  - apply (Hk a self1 HP1).
  - intros _. exact HP1.
Qed.

Lemma on_failure_raise {A} P e : on_failure P (raise (A := A) e).
Proof. intros self HP e' _. exact HP. Qed.

Lemma on_failure_returns {A} P (m : method A) :
  (forall self, exists a, (m self).2 = Ok a) -> on_failure P m.
Proof. intros Hm self _ e He. destruct (Hm self) as [a Ha]. congruence. Qed.

(** A run that raises leaves the trained flag as it was: the flag is set
    after the last statement that can fail. *)
Lemma train_model_on_failure env svc training_data (b : bool) :
  on_failure (fun s => is_trained s = b) (train_model env svc training_data).
Proof.
  unfold train_model.
  apply on_failure_bind; [by apply maintains_assign|]. intros _.
  apply on_failure_bind.
  { destruct training_data;
      (eapply maintains_bind; [apply maintains_call | intros; by apply maintains_ret]). }
  intros data. cbv zeta.
  destruct (Z.of_nat (length data) <? 10); [apply on_failure_raise|].
  apply on_failure_bind; [apply maintains_call|]. intros _.
  apply on_failure_bind; [apply maintains_call|]. intros d.
  destruct (negb (d =? 9)); [apply on_failure_raise|].
  apply on_failure_bind; [apply maintains_call|]. intros X.
  apply on_failure_bind; [apply maintains_call|].
  intros [[[X_train X_test] y_train] y_test].
  apply on_failure_bind; [by apply maintains_assign|]. intros _.
  apply on_failure_bind; [apply maintains_call|]. intros [sc X_train_scaled].
  apply on_failure_bind; [by apply maintains_assign|]. intros _.
  apply on_failure_bind; [apply maintains_call|]. intros X_test_scaled.
  apply on_failure_bind; [apply maintains_call|]. intros y_train_encoded.
  apply on_failure_bind; [apply maintains_call|]. intros y_test_encoded.
  apply on_failure_bind; [by apply maintains_assign|]. intros _.
  apply on_failure_bind; [apply maintains_call|]. intros m.
  apply on_failure_bind; [by apply maintains_assign|]. intros _.
  apply on_failure_bind; [apply maintains_call|]. intros y_pred.
  apply on_failure_bind; [apply maintains_call|]. intros _.
  apply on_failure_returns. intros self'. eexists. reflexivity.
Qed.

Lemma failed_training_keeps_trained_flag env svc training_data self e :
  (train_model env svc training_data self).2 = Raise e ->
  is_trained (train_model env svc training_data self).1 = is_trained self.
Proof.
  intros He.
  by apply (train_model_on_failure env svc training_data (is_trained self) self eq_refl e).
Qed.

(** A detector that was never trained stays untrained through any number
    of failed runs, and keeps answering Unknown. *)
Lemma untrained_until_training_succeeds env svc training_data self packet_data e :
  is_trained self = false ->
  (train_model env svc training_data self).2 = Raise e ->
  analyze_packet env (train_model env svc training_data self).1 packet_data
  = Ok unknown_result.
Proof.
  intros Hu He. apply analyze_packet_untrained. left.
  by rewrite (failed_training_keeps_trained_flag _ _ _ _ _ He).
Qed.

(** Ten samples, five Normal and five Port_Scan: the run succeeds, the
    detector is trained and the version goes from 1 to 2. *)
Example ten_samples_train_to_version_2 :
  let run := train_model Fixtures.env Fixtures.services (Some Fixtures.ten_samples)
               (init default_threat_threshold) in
  model_version run.1 = 2
  /\ is_trained run.1 = true
  /\ run.2 = Ok {| success := true; samplesProcessed := 10; accuracy := "100.00";
                   version := 2; epochs := "N/A (Random Forest)" |}.
Proof. repeat split; vm_compute; reflexivity. Qed.

(** Nine samples: the same call is rejected, and the version is 2 all the
    same. *)
Example nine_samples_rejected_at_version_2 :
  let run := train_model Fixtures.env Fixtures.services
               (Some (take 9 Fixtures.ten_samples))
               (init default_threat_threshold) in
  model_version run.1 = 2
  /\ is_trained run.1 = false
  /\ run.2 = Raise (insufficient_training_data 9).
Proof. repeat split; vm_compute; reflexivity. Qed.

End Training.


(** ** Feature extraction *)

Section FeatureExtraction.
Import ThreatDetector.

(** A character whose upper case is [d] is [d] or its lower case. *)
Lemma upper_ascii_inv (c d : Ascii.ascii) :
  upper_ascii c = d -> c = d \/ c = lower_ascii d.
Proof.
  intros <-.
  destruct c as [[] [] [] [] [] [] [] []];
    first [left; reflexivity | right; reflexivity].
Qed.

Lemma upper_is_TCP s : upper s = "TCP" <-> s ∈ spellings_TCP.
Proof.
  split.
  - destruct s as [|a [|b [|c [|? ?]]]]; simpl; try discriminate.
    intros [= Ha Hb Hc].
    apply upper_ascii_inv in Ha as [->| ->], Hb as [->| ->], Hc as [->| ->];
      vm_compute;
      repeat first [apply list_elem_of_here | apply list_elem_of_further].
  - unfold spellings_TCP. intros H.
    repeat (apply elem_of_cons in H as [->|H]; [reflexivity|]).
    by apply elem_of_nil in H.
Qed.

Lemma upper_is_UDP s : upper s = "UDP" <-> s ∈ spellings_UDP.
Proof.
  split.
  - destruct s as [|a [|b [|c [|? ?]]]]; simpl; try discriminate.
    intros [= Ha Hb Hc].
    apply upper_ascii_inv in Ha as [->| ->], Hb as [->| ->], Hc as [->| ->];
      vm_compute;
      repeat first [apply list_elem_of_here | apply list_elem_of_further].
  - unfold spellings_UDP. intros H.
    repeat (apply elem_of_cons in H as [->|H]; [reflexivity|]).
    by apply elem_of_nil in H.
Qed.

Lemma upper_is_ICMP s : upper s = "ICMP" <-> s ∈ spellings_ICMP.
Proof.
  split.
  - destruct s as [|a [|b [|c [|d [|? ?]]]]]; simpl; try discriminate.
    intros [= Ha Hb Hc Hd].
    apply upper_ascii_inv in Ha as [->| ->], Hb as [->| ->], Hc as [->| ->],
                             Hd as [->| ->];
      vm_compute;
      repeat first [apply list_elem_of_here | apply list_elem_of_further].
  - unfold spellings_ICMP. intros H.
    repeat (apply elem_of_cons in H as [->|H]; [reflexivity|]).
    by apply elem_of_nil in H.
Qed.

(** The table lookup on the upper-cased name gives the code of the
    listed spellings. *)
Lemma get_protocol_number_text env s :
  get_protocol_number env (VStr s) = protocol_code s.
Proof.
  unfold get_protocol_number, protocol_code. simpl.
  repeat case_bool_decide.
  - apply upper_is_TCP in H as ->. reflexivity.
  - apply upper_is_UDP in H0 as ->. reflexivity.
  - apply upper_is_ICMP in H1 as ->. reflexivity.
  - rewrite <- upper_is_TCP in H. rewrite <- upper_is_UDP in H0.
    rewrite <- upper_is_ICMP in H1.
    unfold protocol_map. by rewrite !lookup_insert_ne, lookup_empty.
Qed.

Lemma is_private_prefix_spec s :
  is_private_prefix s = true <-> private_range s.
Proof.
  unfold is_private_prefix, private_range, startswith.
  rewrite !orb_true_iff, existsb_exists. split.
  - intros [[H|H]|(n & Hn & H)]; [right; by left | by left |].
    right; right. exists n. split; [|exact H].
    apply list_elem_of_In, elem_of_seqZ in Hn. lia.
  - intros [H|[H|(n & Hn & H)]]; [left; by right | left; by left |].
    right. exists n. split; [|exact H].
    apply list_elem_of_In, elem_of_seqZ. lia.
Qed.

Lemma get_ip_type_text env s :
  locality s (get_ip_type_from_string env (VStr s)).
Proof.
  unfold get_ip_type_from_string, locality. simpl.
  destruct (String.eqb_spec s "") as [->|Hne]; simpl; [by left|].
  right. destruct (is_private_prefix s) eqn:E.
  - left. repeat split; [assumption|]. by apply is_private_prefix_spec.
  - right. repeat split; [assumption|].
    rewrite <- is_private_prefix_spec. congruence.
Qed.

Lemma get_int_field packet_data k :
  absent_or_int packet_data k ->
  get packet_data k (VInt 0) = VInt (int_field packet_data k).
Proof. unfold get, int_field. by intros [->|[z ->]]. Qed.

Lemma get_text_field packet_data k :
  absent_or_text packet_data k ->
  get packet_data k (VStr "") = VStr (text_field packet_data k).
Proof. unfold get, text_field. by intros [->|[s ->]]. Qed.

Lemma get_port_category_int env z :
  get_port_category env (VInt z) = Ok (port_category z).
Proof. unfold get_port_category, port_category. simpl. by repeat case_match. Qed.

Lemma get_packet_size_category_int env z :
  get_packet_size_category env (VInt z) = Ok (size_category z).
Proof.
  unfold get_packet_size_category, size_category. simpl. by repeat case_match.
Qed.

(** Whatever the [dict] holds, the caller gets nine entries and no
    exception. *)
Lemma extract_features_from_packet_total env packet_data :
  exists fs, extract_features_from_packet env packet_data = Ok fs
             /\ length fs = 9%nat.
Proof.
  unfold extract_features_from_packet.
  destruct (get_time_features env (packet_timestamp env packet_data)); simpl; [|eauto].
  destruct (get_port_category env _); simpl; [|eauto].
  destruct (get_packet_size_category env _); simpl; eauto.
Qed.

(** C6: feature extraction never raises and always returns nine entries;
    on a packet observation (integer size and ports, textual protocol and
    addresses, a readable timestamp, any of them possibly absent) whose
    protocol name is ASCII text the nine entries are numbers, in the
    documented order and by the documented derivations: raw size, source
    port and destination port (0 when absent), protocol code (6, 17, 1
    for the spellings of TCP, UDP, ICMP, else 0), hour, port category,
    size category, and the localities of the two addresses. *)
Theorem extract_features_follows_the_derivations :
  forall (env : Env) (packet_data : packet),
    observation env packet_data ->
    is_ascii (text_field packet_data "protocol") = true ->
    (forall any_dict, exists fs,
        extract_features_from_packet env any_dict = Ok fs /\ length fs = 9%nat)
    /\ exists fs src dst,
        extract_features_from_packet env packet_data = Ok fs
        /\ length fs = 9%nat
        /\ forallb is_numeric fs = true
        /\ fs = [VInt (int_field packet_data "packetSize");
                 VInt (int_field packet_data "sourcePort");
                 VInt (int_field packet_data "destinationPort");
                 VInt (protocol_code (text_field packet_data "protocol"));
                 VInt (hour_of env packet_data);
                 VInt (port_category (int_field packet_data "destinationPort"));
                 VInt (size_category (int_field packet_data "packetSize"));
                 VInt src;
                 VInt dst]
        /\ locality (text_field packet_data "sourceIP") src
        /\ locality (text_field packet_data "destinationIP") dst.
Proof.
  intros env packet_data (Hsize & Hsport & Hdport & Hproto & Hsrc & Hdst & Hts) _.
  split; [intros; apply extract_features_from_packet_total|].
  eexists _,
    (get_ip_type_from_string env (VStr (text_field packet_data "sourceIP"))),
    (get_ip_type_from_string env (VStr (text_field packet_data "destinationIP"))).
  assert (Hhour : get_time_features env (packet_timestamp env packet_data)
                  = Ok (hour_of env packet_data)).
  { unfold packet_timestamp, hour_of.
    destruct Hts as [->|(s & h & -> & Hh)]; simpl; [reflexivity|].
    by rewrite Hh. }
  split.
  { unfold extract_features_from_packet,
      get_source_ip_category, get_destination_ip_category.
    rewrite !get_int_field, !get_text_field by assumption.
    rewrite get_protocol_number_text, get_port_category_int,
      get_packet_size_category_int, Hhour. reflexivity. }
  repeat split; apply get_ip_type_text.
Qed.

Lemma extract_features_follows_the_derivations_witness :
  (forall any_dict, exists fs,
      extract_features_from_packet Fixtures.env any_dict = Ok fs /\ length fs = 9%nat)
  /\ exists fs src dst,
      extract_features_from_packet Fixtures.env Fixtures.ssh_probe = Ok fs
      /\ length fs = 9%nat
      /\ forallb is_numeric fs = true
      /\ fs = [VInt (int_field Fixtures.ssh_probe "packetSize");
               VInt (int_field Fixtures.ssh_probe "sourcePort");
               VInt (int_field Fixtures.ssh_probe "destinationPort");
               VInt (protocol_code (text_field Fixtures.ssh_probe "protocol"));
               VInt (hour_of Fixtures.env Fixtures.ssh_probe);
               VInt (port_category (int_field Fixtures.ssh_probe "destinationPort"));
               VInt (size_category (int_field Fixtures.ssh_probe "packetSize"));
               VInt src;
               VInt dst]
      /\ locality (text_field Fixtures.ssh_probe "sourceIP") src
      /\ locality (text_field Fixtures.ssh_probe "destinationIP") dst.
Proof.
  apply (extract_features_follows_the_derivations Fixtures.env Fixtures.ssh_probe).
  - unfold observation, absent_or_int, absent_or_text.
    repeat split; try (right; eexists; vm_compute; reflexivity).
    right. exists "2024-05-01T09:30:00", 9. split; vm_compute; reflexivity.
  - vm_compute. reflexivity.
Defined.

(** Every packet the capture loop builds is an observation in that sense,
    as long as the interpreter reads back the timestamps it prints. *)
Lemma parse_packet_line_observation env line interface packet_data h :
  fromisoformat_hour env (replace_char "Z"%char "+00:00" (now_isoformat env)) = Ok h ->
  NetworkMonitor.parse_packet_line env line interface = Some packet_data ->
  observation env packet_data.
Proof.
  intros Hh. unfold NetworkMonitor.parse_packet_line.
  destruct (negb _); [discriminate|].
  destruct (_ <? _)%nat; [discriminate|].
  destruct (NetworkMonitor.endpoint env (default "" (split line !! 1%nat)))
    as [[source_ip source_port]|]; simpl; [|discriminate].
  destruct (NetworkMonitor.endpoint env _) as [[dest_ip dest_port]|];
    simpl; [|discriminate].
  intros [= <-].
  unfold observation, absent_or_int, absent_or_text.
  repeat split; try (right; eexists; reflexivity).
  right. exists (now_isoformat env), h. split; [reflexivity | exact Hh].
Qed.

Lemma is_ascii_cons c s :
  is_ascii (String c s) = (Ascii.N_of_ascii c <? 128)%N && is_ascii s.
Proof. reflexivity. Qed.

Lemma is_ascii_app a b : is_ascii (a +:+ b) = is_ascii a && is_ascii b.
Proof.
  induction a as [|c a IH]; [reflexivity|].
  change (String c a +:+ b) with (String c (a +:+ b)).
  by rewrite !is_ascii_cons, IH, andb_assoc.
Qed.

Lemma split_from_ascii s : forall word,
  is_ascii word = true -> is_ascii s = true ->
  Forall (fun w => is_ascii w = true) (split_from word s).
Proof.
  induction s as [|c s IH]; intros word Hw Hs; simpl.
  - destruct (String.eqb word ""); by repeat constructor.
  - rewrite is_ascii_cons in Hs. apply andb_true_iff in Hs as [Hc Hs].
    destruct (is_space c).
    + destruct (String.eqb word ""); [|constructor; [done|]]; by apply IH.
    + apply IH; [|done].
      by rewrite is_ascii_app, Hw, is_ascii_cons, Hc.
Qed.

Lemma lower_is_ascii s : is_ascii s = true -> is_ascii (lower s) = true.
Proof.
  induction s as [|c s IH]; [done|].
  rewrite is_ascii_cons. intros [Hc Hs]%andb_true_iff.
  change (lower (String c s)) with (String (lower_ascii c) (lower s)).
  rewrite is_ascii_cons, IH by done. rewrite andb_true_r.
  revert Hc. by destruct c as [[] [] [] [] [] [] [] []].
Qed.

(** The protocol name of a packet parsed from an ASCII line is ASCII. *)
Lemma parse_packet_line_protocol_ascii env line interface packet_data :
  is_ascii line = true ->
  NetworkMonitor.parse_packet_line env line interface = Some packet_data ->
  is_ascii (text_field packet_data "protocol") = true.
Proof.
  intros Hline. unfold NetworkMonitor.parse_packet_line.
  destruct (negb _); [discriminate|].
  destruct (_ <? _)%nat; [discriminate|].
  destruct (NetworkMonitor.endpoint env (default "" (split line !! 1%nat)))
    as [[source_ip source_port]|]; simpl; [|discriminate].
  destruct (NetworkMonitor.endpoint env _) as [[dest_ip dest_port]|];
    simpl; [|discriminate].
  intros [= <-].
  change (is_ascii (lower (default "Unknown" (split line !! 4%nat))) = true).
  apply lower_is_ascii.
  destruct (split line !! 4%nat) as [word|] eqn:E; [|reflexivity].
  pose proof (split_from_ascii line "" eq_refl Hline) as Hall.
  rewrite Forall_forall in Hall. apply Hall.
  by eapply list_elem_of_lookup_2.
Qed.

(** A line that does not start with [IP] gives no packet. *)
Example garbage_line_is_dropped :
  NetworkMonitor.parse_packet_line Fixtures.env "garbage output not IP" "eth0" = None.
Proof. reflexivity. Qed.

(** The sample line of the parser's own comment, parsed and then turned
    into features.  The protocol word keeps the comma printed after it,
    which no entry of the protocol table has. *)
Example sample_line_features :
  exists packet_data,
    NetworkMonitor.parse_packet_line Fixtures.env
      "IP 192.168.1.100.52345 > 8.8.8.8.53: UDP, length 32" "eth0" = Some packet_data
    /\ packet_data !! "protocol" = Some (VStr "udp,")
    /\ extract_features_from_packet Fixtures.env packet_data
       = Ok [VInt 32; VInt 52345; VInt 53; VInt 0; VInt 14;
             VInt 1; VInt 1; VInt 1; VInt 2].
Proof. eexists. repeat split; vm_compute; reflexivity. Qed.

(** The probe of the fixtures, field by field. *)
Example ssh_probe_features :
  extract_features_from_packet Fixtures.env Fixtures.ssh_probe
  = Ok [VInt 40; VInt 4444; VInt 22; VInt 6; VInt 9; VInt 1; VInt 1; VInt 1; VInt 2].
Proof. vm_compute. reflexivity. Qed.

(** Outside the typed observations the fallbacks show: a destination port
    present but [None] is passed through and put in category 0, and a port
    that is not a number empties the whole vector. *)
Example none_port_features :
  extract_features_from_packet Fixtures.env
    (<["destinationPort" := VNone]> Fixtures.ssh_probe)
  = Ok [VInt 40; VInt 4444; VNone; VInt 6; VInt 9; VInt 0; VInt 1; VInt 1; VInt 2].
Proof. vm_compute. reflexivity. Qed.

Example text_port_features :
  extract_features_from_packet Fixtures.env
    (<["destinationPort" := VStr "ssh"]> Fixtures.ssh_probe)
  = Ok zero_features.
Proof. vm_compute. reflexivity. Qed.

End FeatureExtraction.


(** ** Bulk import *)

Section BulkImport.
Import ThreatDetector.

Lemma float_or_zero_numeric env v r :
  float_or_zero env v = Ok r -> is_numeric r = true.
Proof.
  unfold float_or_zero. destruct (negb (isna v)); [|by intros [= <-]].
  destruct (to_float env v); simpl; [by intros [= <-] | discriminate].
Qed.

(** The [try] block gives nine numbers. *)
Lemma csv_row_try_block_shape env row fs :
  csv_row_try_block env row = Ok fs ->
  length fs = 9%nat /\ forallb is_numeric fs = true.
Proof.
  unfold csv_row_try_block.
  destruct (float_or_zero env (packet_size row)) as [f0|] eqn:E0; simpl; [|done].
  destruct (float_or_zero env (source_port row)) as [f1|] eqn:E1; simpl; [|done].
  destruct (float_or_zero env (dest_port row)) as [f2|] eqn:E2; simpl; [|done].
  destruct (get_port_category env (dest_port row)) as [f5|]; simpl; [|done].
  destruct (get_packet_size_category env (packet_size row)) as [f6|]; simpl; [|done].
  intros [= <-]. split; [reflexivity|]. simpl.
  by rewrite (float_or_zero_numeric _ _ _ E0), (float_or_zero_numeric _ _ _ E1),
    (float_or_zero_numeric _ _ _ E2).
Qed.

(** Whatever the row holds, the caller gets nine numbers, and the log
    holds nothing or the error of the handler. *)
Lemma extract_features_from_csv_row_shape env row :
  length (extract_features_from_csv_row env row).2 = 9%nat
  /\ forallb is_numeric (extract_features_from_csv_row env row).2 = true
  /\ Forall (fun e => e = (ERROR, "Error extracting features"))
            (extract_features_from_csv_row env row).1.
Proof.
  unfold extract_features_from_csv_row.
  destruct (csv_row_try_block env row) as [fs|] eqn:E; simpl.
  - destruct (csv_row_try_block_shape env row fs E). repeat split; auto.
  - repeat split. by repeat constructor.
Qed.

Lemma np_isnan_numeric fs :
  forallb is_numeric fs = true ->
  exists nans, np_isnan fs = Ok nans /\ existsb id nans = holds_nan fs.
Proof.
  unfold np_isnan. induction fs as [|v fs IH]; [by exists []|].
  simpl. intros [Hv Hfs]%andb_true_iff.
  destruct (IH Hfs) as (nans & Hn & He).
  destruct v as [|z|f|s]; try discriminate; cbn [mapM]; rewrite Hn; simpl.
  - exists (false :: nans). by rewrite <- He.
  - exists (PrimFloat.is_nan f :: nans). by rewrite <- He.
Qed.

(** A row adds one sample carrying its own label, unless its features
    hold a NaN; the loop's own handler is never reached. *)
Lemma process_row_exact env row acc :
  process_row env row acc
  = ((extract_features_from_csv_row env row).1,
     if retained env row
     then acc ++ [sample_from (extract_features_from_csv_row env row).2 row]
     else acc).
Proof.
  unfold process_row, retained.
  destruct (extract_features_from_csv_row_shape env row) as (Hlen & Hnum & _).
  destruct (extract_features_from_csv_row env row) as [l fs]. simpl in *.
  rewrite Hlen. cbn [Nat.eqb].
  destruct (np_isnan_numeric fs Hnum) as (nans & Hn & He).
  rewrite Hn. unfold mbind, res_bind, bind. rewrite He.
  by destruct (holds_nan fs).
Qed.

Lemma process_rows_exact env rows : forall acc,
  (process_rows env rows acc).2
  = acc ++ map (fun r => sample_from (extract_features_from_csv_row env r).2 r)
             (filter (fun r => retained env r = true) rows)
  /\ Forall (fun e => e = (ERROR, "Error extracting features"))
            (process_rows env rows acc).1.
Proof.
  induction rows as [|row rows IH]; intros acc; simpl.
  - rewrite app_nil_r. by split.
  - rewrite process_row_exact. rewrite filter_cons.
    destruct (extract_features_from_csv_row_shape env row) as (_ & _ & Hl).
    destruct (retained env row) eqn:E.
    + destruct (decide (true = true)); [|done].
      destruct (IH (acc ++ [sample_from (extract_features_from_csv_row env row).2 row]))
        as [Hout Hlog].
      destruct (process_rows env rows _) as [l2 data2]. simpl in *.
      split; [by rewrite Hout, <- app_assoc | by apply Forall_app].
    + destruct (decide (false = true)); [done|].
      destruct (IH acc) as [Hout Hlog].
      destruct (process_rows env rows acc) as [l2 data2]. simpl in *.
      split; [done | by apply Forall_app].
Qed.






Lemma holds_no_nan_clean fs :
  forallb is_numeric fs = true -> holds_nan fs = false -> Forall clean fs.
Proof.
  induction fs as [|v fs IH]; [constructor|].
  simpl. intros [Hv Hfs]%andb_true_iff [Hn Hr]%orb_false_iff.
  constructor; [|by apply IH]. by destruct v.
Qed.



Lemma no_missing_columns (cols required : list string) :
  (forall c, c ∈ required -> c ∈ cols) ->
  filter (fun col => col ∉ cols) required = [].
Proof.
  induction required as [|c required IH]; intros H; [reflexivity|].
  rewrite filter_cons. destruct (decide (c ∉ cols)) as [Hc|_].
  - exfalso. apply Hc, H. by left.
  - apply IH. intros c' Hc'. apply H. by right.
Qed.

Lemma no_invalid_threats rows :
  filter (fun v => is_valid_threat v = false) (map threat_type rows) = [] ->
  filter (fun r => is_valid_threat (threat_type r) = true) rows = rows.
Proof.
  induction rows as [|r rows IH]; [reflexivity|]. simpl.
  rewrite !filter_cons.
  destruct (is_valid_threat (threat_type r)) eqn:E.
  - destruct (decide (true = false)); [discriminate|].
    destruct (decide (true = true)); [|done]. intros H. by rewrite IH.
  - destruct (decide (false = false)); [discriminate | done].
Qed.


Lemma process_csv_file_outcome env df :
  (forall c, c ∈ required_columns -> c ∈ columns df) ->
  exists l1 l2 samples,
    process_csv_file env df
    = ([(INFO, "Processing CSV file for training"); (INFO, "CSV loaded")]
         ++ l1 ++ [(INFO, "Processing valid rows")] ++ l2
         ++ [(INFO, "Extracted valid training samples")],
       Ok samples)
    /\ (l1, l2, samples)
       = (if nonempty (filter (fun v => is_valid_threat v = false)
                         (map threat_type (rows df)))
          then [(WARNING, "Invalid threat types found")] else [],
          (process_rows env (valid_rows (rows df)) []).1,
          (process_rows env (valid_rows (rows df)) []).2).
Proof.
  intros Hcols. unfold process_csv_file.
  rewrite (no_missing_columns _ _ Hcols). simpl.
  destruct (nonempty _) eqn:E.
  - fold (valid_rows (rows df)).
    destruct (process_rows env (valid_rows (rows df)) []) as [l2 samples].
    by eexists _, _, _.
  - assert (Hall : valid_rows (rows df) = rows df).
    { apply no_invalid_threats. by destruct (filter _ _). }
    rewrite Hall.
    destruct (process_rows env (rows df) []) as [l2 samples].
    by eexists _, _, _.
Qed.

(** With every column present the log holds info lines, at most one
    warning and the errors of the feature extraction: never the error of
    an aborted import. *)
Lemma process_csv_file_not_aborted env df :
  (forall c, c ∈ required_columns -> c ∈ columns df) ->
  forall msg, (ERROR, msg) ∈ (process_csv_file env df).1 ->
              msg = "Error extracting features".
Proof.
  intros Hcols msg.
  destruct (process_csv_file_outcome env df Hcols)
    as (l1 & l2 & samples & -> & [= Hl1 Hl2 _]).
  destruct (process_rows_exact env (valid_rows (rows df)) []) as [_ Hlog].
  rewrite <- Hl2 in Hlog. cbn [fst].
  assert (Hl1' : Forall (fun e : level * string => e.1 <> ERROR) l1).
  { rewrite Hl1. destruct (nonempty _); repeat constructor; discriminate. }
  rewrite Forall_forall in Hl1', Hlog.
  rewrite !elem_of_app, !elem_of_cons, elem_of_nil.
  intros [[?|[?|[]]]|[Hin|[[?|[]]|[Hin|[?|[]]]]]]; try discriminate.
  - by apply Hl1' in Hin.
  - apply Hlog in Hin. by injection Hin.
Qed.




Example twenty_of_twenty_one_rows_retained :
  let df := {| columns := required_columns;
               rows := replicate 10 Fixtures.scan_row ++ [Fixtures.foo_row]
                         ++ replicate 10 Fixtures.normal_row |} in
  exists samples,
    (process_csv_file Fixtures.env df).2 = Ok samples
    /\ length samples = 20%nat
    /\ map raw_data samples
       = replicate 10 Fixtures.scan_row ++ replicate 10 Fixtures.normal_row.
Proof. eexists. repeat split; vm_compute; reflexivity. Qed.

(** A cell that is no number makes the extraction log an error and
    return nine zeros; the row is kept with them. *)
Example text_cell_logs_an_error :
  let row := {| source_ip := VStr "10.0.0.1"; dest_ip := VStr "8.8.8.8";
                source_port := VInt 4444; dest_port := VInt 22;
                protocol := VStr "TCP"; packet_size := VStr "big";
                duration := VFloat 0.5; threat_type := VStr "Normal" |} in
  process_csv_file Fixtures.env {| columns := required_columns; rows := [row] |}
  = ([(INFO, "Processing CSV file for training"); (INFO, "CSV loaded");
      (INFO, "Processing valid rows"); (ERROR, "Error extracting features");
      (INFO, "Extracted valid training samples")],
     Ok [{| features := zero_features; label := VStr "Normal"; raw_data := row |}]).
Proof. vm_compute. reflexivity. Qed.

End BulkImport.


(** ** Labels and answers *)

Section Labels.
Import ThreatDetector.

Lemma classes_are_the_threat_types s : s ∈ classes_ <-> s ∈ threat_types.
Proof. unfold classes_. by rewrite merge_sort_Permutation. Qed.

Lemma inverse_transform_Ok i s :
  inverse_transform i = Ok s ->
  0 <= i < 7 /\ classes_ !! Z.to_nat i = Some s.
Proof.
  unfold inverse_transform.
  destruct ((0 <=? i) && (i <? Z.of_nat (length classes_))) eqn:R; [|discriminate].
  apply andb_true_iff in R as [Hlo Hhi].
  apply Z.leb_le in Hlo. apply Z.ltb_lt in Hhi.
  change (Z.of_nat (length classes_)) with 7 in Hhi.
  destruct (classes_ !! Z.to_nat i) as [c|] eqn:E.
  - intros [= <-]. split; [lia | reflexivity].
  - apply lookup_ge_None in E. change (length classes_) with 7%nat in E. lia.
Qed.

Lemma label_transform_lookup i s :
  classes_ !! i = Some s -> label_transform (VStr s) = Ok (Z.of_nat i).
Proof.
  change classes_ with
    ["Brute_Force"; "DDoS"; "Intrusion"; "Malware"; "Normal"; "Phishing"; "Port_Scan"].
  do 7 (destruct i as [|i]; [intros [= <-]; vm_compute; reflexivity|]).
  discriminate.
Qed.

(** X1: the label encoder is a bijection between the closed label set and
    the indices 0..6: every label of the set is encoded to an index that
    decodes back to it, every index that decodes is the code of the label
    it gives, and anything outside the set is refused. *)
Theorem label_encoding_round_trip :
  (forall s, s ∈ threat_types ->
     exists i, label_transform (VStr s) = Ok i /\ 0 <= i < 7
               /\ inverse_transform i = Ok s)
  /\ (forall i s, inverse_transform i = Ok s ->
        s ∈ threat_types /\ label_transform (VStr s) = Ok i)
  /\ (forall v, is_valid_threat v = false -> raises (label_transform v)).
Proof.
  split; [|split].
  - intros s Hs. unfold threat_types in Hs.
    repeat (apply elem_of_cons in Hs as [->|Hs]);
      try (eexists; split; [vm_compute; reflexivity
                           | split; [lia | vm_compute; reflexivity]]).
    by apply elem_of_nil in Hs.
  - intros i s Hi. apply inverse_transform_Ok in Hi as [Hrange Hlook]. split.
    + apply classes_are_the_threat_types. by eapply list_elem_of_lookup_2.
    + rewrite (label_transform_lookup _ _ Hlook). f_equal. lia.
  - intros v Hv. unfold raises, label_transform.
    destruct v as [| | |s]; try by eexists.
    simpl in Hv. apply bool_decide_eq_false in Hv.
    destruct (label_index classes_ s) as [i|] eqn:E; [|by eexists].
    exfalso. apply Hv. unfold label_index in E.
    destruct (list_find (fun c => c = s) classes_) as [[j c]|] eqn:F; [|discriminate].
    apply list_find_Some in F as (Hj & -> & _).
    apply classes_are_the_threat_types. by eapply list_elem_of_lookup_2.
Qed.

Lemma classify_Ok env self packet_data features label conf :
  classify env self packet_data = Ok (features, label, conf) ->
  extract_features_from_packet env packet_data = Ok features
  /\ label ∈ threat_types.
Proof.
  unfold classify. intros H.
  apply bind_Ok in H as (fs & Hfs & H).
  apply bind_Ok in H as (sc & _ & H).
  apply bind_Ok in H as (scaled & _ & H).
  apply bind_Ok in H as (m & _ & H).
  apply bind_Ok in H as (prediction & _ & H).
  apply bind_Ok in H as (probabilities & _ & H).
  apply bind_Ok in H as (c & Hc & H).
  apply bind_Ok in H as (p & _ & H).
  injection H as <- <- <-. split; [exact Hfs|].
  apply inverse_transform_Ok in Hc as [_ Hc].
  apply classes_are_the_threat_types. by eapply list_elem_of_lookup_2.
Qed.

Lemma get_threat_type_dedicated label :
  label ∈ threat_types -> label <> "Normal" ->
  get_threat_type label <> "Unknown Threat".
Proof.
  intros Hl Hn. unfold threat_types in Hl.
  repeat (apply elem_of_cons in Hl as [->|Hl]); try done.
  by apply elem_of_nil in Hl.
Qed.

(** The answer of the [try] block, spelled out. *)
Lemma analyze_try_block_Ok env self packet_data features label conf :
  classify env self packet_data = Ok (features, label, conf) ->
  analyze_try_block env self packet_data
  = Ok {| classification := label;
          confidence := VFloat conf;
          threat :=
            if is_threat_of self label conf
            then Some {|
              th_id := uuid4 env;
              th_timestamp := get packet_data "timestamp" (VStr (now_isoformat env));
              th_type := get_threat_type label;
              th_severity := get_severity label conf;
              th_source := get packet_data "sourceIP" (VStr "Unknown");
              th_destination := get packet_data "destinationIP" (VStr "Unknown");
              th_sourcePort := get_or_None packet_data "sourcePort";
              th_destinationPort := get_or_None packet_data "destinationPort";
              th_protocol := get packet_data "protocol" (VStr "Unknown");
              th_packetSize := get_or_None packet_data "packetSize";
              th_description := get_threat_description env label packet_data;
              th_classification := label;
              th_confidence := conf;
              th_networkInterface := get packet_data "networkInterface" (VStr "Unknown");
              th_rawPacketData := packet_data;
              th_features := features |}
            else None;
          isThreat := is_threat_of self label conf |}.
Proof.
  intros Hc. unfold analyze_try_block. rewrite Hc. simpl.
  by destruct (is_threat_of self label conf).
Qed.

(** The three shapes of an answer. *)
Lemma analyze_packet_cases env self packet_data :
  analyze_packet env self packet_data = Ok unknown_result
  /\ (is_trained self = false \/ model self = None)
  \/ analyze_packet env self packet_data = Ok error_result
     /\ is_trained self = true /\ model self <> None
  \/ exists features label conf,
       classify env self packet_data = Ok (features, label, conf)
       /\ is_trained self = true /\ model self <> None
       /\ analyze_packet env self packet_data
          = analyze_try_block env self packet_data.
Proof.
  destruct (is_trained self) eqn:Ht;
    [|left; split; [apply analyze_packet_untrained|]; by left].
  destruct (model self) as [m|] eqn:Hm;
    [|left; split; [apply analyze_packet_untrained|]; by right].
  assert (Hm' : model self <> None) by congruence.
  rewrite analyze_packet_trained by done.
  destruct (classify env self packet_data) as [[[features label] conf]|e] eqn:Hc.
  - right; right. exists features, label, conf. repeat split; try done.
    by rewrite (analyze_try_block_Ok _ _ _ _ _ _ Hc).
  - right; left. apply analyze_try_block_Raise in Hc. by rewrite Hc.
Qed.

(** X2: the label of an answer is always Unknown, Error or one of the
    seven labels of the closed set, and a detector that reports itself
    loaded ([is_model_loaded]) never answers Unknown. *)
Theorem analysis_label_is_known :
  forall (env : Env) (self : detector) (packet_data : packet),
    exists r,
      analyze_packet env self packet_data = Ok r
      /\ classification r ∈ "Unknown" :: "Error" :: threat_types
      /\ (is_model_loaded self = true -> classification r <> "Unknown").
Proof.
  intros env self packet_data.
  destruct (analyze_packet_cases env self packet_data)
    as [(H & Hu)|[(H & Ht & Hm)|(features & label & conf & Hc & Ht & Hm & H)]].
  - exists unknown_result. split; [exact H|]. split; [by left|].
    unfold is_model_loaded. intros Hl.
    apply andb_true_iff in Hl as [Hl _]. apply andb_true_iff in Hl as [H1 H2].
    destruct Hu as [Hu|Hu]; rewrite Hu in *; discriminate.
  - exists error_result. split; [exact H|]. split; [right; by left | done].
  - rewrite H, (analyze_try_block_Ok _ _ _ _ _ _ Hc). eexists. split; [reflexivity|].
    simpl. apply classify_Ok in Hc as [_ Hl]. split; [by do 2 right|].
    intros _ ->. unfold threat_types in Hl.
    repeat (apply elem_of_cons in Hl as [?|Hl]); try done.
    by apply elem_of_nil in Hl.
Qed.

(** What a threat record of an answer holds. *)
Lemma threat_of_answer env self packet_data r t :
  analyze_packet env self packet_data = Ok r ->
  threat r = Some t ->
  isThreat r = true
  /\ th_classification t = classification r
  /\ classification r ∈ threat_types
  /\ classification r <> "Normal"
  /\ confidence r = VFloat (th_confidence t)
  /\ (threat_threshold self <? th_confidence t)%float = true
  /\ th_severity t = get_severity (classification r) (th_confidence t)
  /\ th_type t = get_threat_type (classification r)
  /\ th_rawPacketData t = packet_data
  /\ extract_features_from_packet env packet_data = Ok (th_features t).
Proof.
  intros Hr Ht.
  destruct (analyze_packet_cases env self packet_data)
    as [(H & _)|[(H & _)|(features & label & conf & Hc & _ & _ & H)]];
    rewrite H in Hr.
  - injection Hr as <-. discriminate.
  - injection Hr as <-. discriminate.
  - rewrite (analyze_try_block_Ok _ _ _ _ _ _ Hc) in Hr. injection Hr as <-.
    simpl in *. apply classify_Ok in Hc as [Hfs Hl].
    destruct (is_threat_of self label conf) eqn:E; [|discriminate].
    injection Ht as <-. simpl.
    unfold is_threat_of in E. apply andb_true_iff in E as [En Et].
    apply negb_true_iff, String.eqb_neq in En. done.
Qed.

Lemma threat_iff_flag env self packet_data r :
  analyze_packet env self packet_data = Ok r ->
  isThreat r = true <-> is_Some (threat r).
Proof.
  intros Hr.
  destruct (analyze_packet_cases env self packet_data)
    as [(H & _)|[(H & _)|(features & label & conf & Hc & _ & _ & H)]];
    rewrite H in Hr.
  - injection Hr as <-. simpl. split; [discriminate | by intros [? ?]].
  - injection Hr as <-. simpl. split; [discriminate | by intros [? ?]].
  - rewrite (analyze_try_block_Ok _ _ _ _ _ _ Hc) in Hr. injection Hr as <-.
    simpl. destruct (is_threat_of self label conf); [split; eauto|].
    split; [discriminate | by intros [? ?]].
Qed.

Lemma analyze_packet_returns env self packet_data :
  exists r, analyze_packet env self packet_data = Ok r.
Proof.
  destruct (analyze_packet_cases env self packet_data)
    as [(H & _)|[(H & _)|(features & label & conf & Hc & _ & _ & H)]]; eauto.
  rewrite H, (analyze_try_block_Ok _ _ _ _ _ _ Hc). eauto.
Qed.

(** X3: an answer carries a threat record exactly when it is flagged as a
    threat; the record then has the label of the answer, which is one of
    the six threat labels, a type of its own for that label, the
    confidence of the answer, strictly above the threshold, the severity of
    that confidence, the packet itself and the features extracted from
    it. *)
Theorem threat_record_matches_answer :
  forall (env : Env) (self : detector) (packet_data : packet),
    exists r,
      analyze_packet env self packet_data = Ok r
      /\ (isThreat r = true <-> is_Some (threat r))
      /\ forall t, threat r = Some t ->
           th_classification t = classification r
           /\ classification r ∈ threat_types
           /\ classification r <> "Normal"
           /\ th_type t <> "Unknown Threat"
           /\ confidence r = VFloat (th_confidence t)
           /\ (threat_threshold self <? th_confidence t)%float = true
           /\ th_severity t = get_severity (classification r) (th_confidence t)
           /\ th_rawPacketData t = packet_data
           /\ extract_features_from_packet env packet_data = Ok (th_features t).
Proof.
  intros env self packet_data.
  destruct (analyze_packet_returns env self packet_data) as [r Hr].
  exists r. split; [exact Hr|]. split; [by eapply threat_iff_flag|].
  intros t Ht.
  destruct (threat_of_answer _ _ _ _ _ Hr Ht)
    as (_ & Hc & Hl & Hn & Hconf & Habove & Hsev & Htype & Hraw & Hfs).
  repeat split; try done.
  rewrite Htype. by apply get_threat_type_dedicated.
Qed.

(** X4: under the default threshold no threat record is of severity Low:
    what is flagged is above 0.7, hence Medium at least. *)
Theorem no_low_severity_at_default_threshold :
  forall (env : Env) (self : detector) (packet_data : packet) (r : analysis)
         (t : ThreatRecord),
    threat_threshold self = default_threat_threshold ->
    analyze_packet env self packet_data = Ok r ->
    threat r = Some t ->
    th_severity t ∈ ["Critical"; "High"; "Medium"].
Proof.
  intros env self packet_data r t Hthr Hr Ht.
  destruct (threat_of_answer _ _ _ _ _ Hr Ht)
    as (_ & _ & _ & _ & _ & Habove & Hsev & _).
  rewrite Hsev. rewrite Hthr in Habove.
  unfold get_severity, default_threat_threshold in *.
  destruct (0.9 <? th_confidence t)%float; [by left|].
  destruct (0.8 <? th_confidence t)%float; [right; by left|].
  rewrite Habove. right; right; by left.
Qed.

Lemma no_low_severity_at_default_threshold_witness :
  analyze_packet Fixtures.env Fixtures.trained Fixtures.ssh_probe
  = Ok Fixtures.ssh_probe_answer
  /\ th_severity Fixtures.ssh_probe_threat ∈ ["Critical"; "High"; "Medium"].
Proof.
  split; [vm_compute; reflexivity|].
  apply (no_low_severity_at_default_threshold Fixtures.env Fixtures.trained
           Fixtures.ssh_probe Fixtures.ssh_probe_answer Fixtures.ssh_probe_threat).
  - reflexivity.
  - vm_compute. reflexivity.
  - reflexivity.
Defined.

End Labels.


(** ** Training runs, from the first statement to the last *)

Section TrainingRuns.
Import ThreatDetector.

Lemma returns_from_bind {A B} self (m : method A) (k : A -> method B) Q1 Q2 :
  returns_from self m Q1 ->
  (forall a self1, Q1 a self1 -> returns_from self1 (k a) Q2) ->
  returns_from self (m ≫= k) Q2.
Proof.
  intros Hm Hk b. unfold mbind, method_bind.
  specialize (Hm). unfold returns_from in Hm.
  destruct (m self) as [self1 [a|e]] eqn:E; simpl in *; [|discriminate].
  apply (Hk a self1 (Hm a eq_refl)).
Qed.

Lemma returns_from_call {A} self (r : res A) :
  returns_from self (call r) (fun a self1 => self1 = self /\ r = Ok a).
Proof. intros a H. simpl in *. by split. Qed.

Lemma returns_from_assign self f :
  returns_from self (assign f) (fun _ self1 => self1 = f self).
Proof. by intros a H. Qed.

Lemma returns_from_read {A} self (f : detector -> A) :
  returns_from self (read f) (fun a self1 => self1 = self /\ a = f self).
Proof. intros a [= <-]. by split. Qed.

Lemma returns_from_raise {A} self e (Q : A -> detector -> Prop) :
  returns_from self (raise e) Q.
Proof. intros a H. discriminate. Qed.

Lemma returns_from_ret {A} self (a : A) (Q : A -> detector -> Prop) :
  Q a self -> returns_from self (mret a) Q.
Proof. intros HQ b [= <-]. exact HQ. Qed.

Ltac step_call := eapply returns_from_bind; [apply returns_from_call|].
Ltac step_assign :=
  eapply returns_from_bind; [apply returns_from_assign|]; intros _ ? ->.

(** X5: a training run that returns has trained on at least ten samples;
    it leaves the detector marked trained, with a model and a scaler, the
    sample total increased by the number of samples, the date of the run,
    and exactly one new history entry, whose sample count, accuracy and
    version are the ones of the returned result: the version before the
    call plus one. *)
Theorem successful_training_run :
  forall (env : Env) (svc : Services) (training_data : option (list Sample))
         (self : detector) (r : TrainResult),
    (train_model env svc training_data self).2 = Ok r ->
    let n := Z.of_nat (length (samples_used svc training_data)) in
    let self' := (train_model env svc training_data self).1 in
    10 <= n
    /\ is_trained self' = true
    /\ is_model_loaded self' = true
    /\ total_samples_trained self' = total_samples_trained self + n
    /\ last_training_date self' = Some (now_isoformat env)
    /\ training_history self'
       = training_history self
         ++ [{| hist_date := now_isoformat env; hist_samples := n;
                hist_accuracy := accuracy r;
                hist_version := model_version self + 1 |}]
    /\ r = {| success := true; samplesProcessed := n; accuracy := accuracy r;
              version := model_version self + 1; epochs := "N/A (Random Forest)" |}.
Proof.
  intros env svc training_data self r Hr n self'. subst n self'.
  revert r Hr.
  change (returns_from self (train_model env svc training_data)
            (fun r self' =>
               let n := Z.of_nat (length (samples_used svc training_data)) in
               10 <= n
               /\ is_trained self' = true
               /\ is_model_loaded self' = true
               /\ total_samples_trained self' = total_samples_trained self + n
               /\ last_training_date self' = Some (now_isoformat env)
               /\ training_history self'
                  = training_history self
                    ++ [{| hist_date := now_isoformat env; hist_samples := n;
                           hist_accuracy := accuracy r;
                           hist_version := model_version self + 1 |}]
               /\ r = {| success := true; samplesProcessed := n;
                         accuracy := accuracy r;
                         version := model_version self + 1;
                         epochs := "N/A (Random Forest)" |})).
  unfold train_model.
  step_assign.
  eapply returns_from_bind with
    (Q1 := fun data self1 =>
             self1 = set_model_version (model_version self + 1) self
             /\ data = samples_used svc training_data).
  { destruct training_data as [data|];
      (step_call; intros [] ? [-> _]; by apply returns_from_ret). }
  intros data ? [-> ->]. cbv zeta.
  destruct (Z.ltb_spec (Z.of_nat (length (samples_used svc training_data))) 10)
    as [|Hn]; [apply returns_from_raise|].
  step_call. intros _ ? [-> _].
  step_call. intros d ? [-> _].
  destruct (negb (d =? 9)); [apply returns_from_raise|].
  step_call. intros X ? [-> _].
  step_call. intros [[[X_train X_test] y_train] y_test] ? [-> _].
  step_assign.
  step_call. intros [sc X_train_scaled] ? [-> _].
  step_assign.
  step_call. intros X_test_scaled ? [-> _].
  step_call. intros y_train_encoded ? [-> _].
  step_call. intros y_test_encoded ? [-> _].
  step_assign.
  step_call. intros m ? [-> _].
  step_assign.
  step_call. intros y_pred ? [-> _].
  step_call. intros _ ? [-> _].
  step_assign.
  step_assign.
  eapply returns_from_bind; [apply returns_from_read|]. intros v ? [-> ->].
  apply returns_from_ret. simpl. repeat split; done.
Qed.

Lemma successful_training_run_witness :
  Fixtures.ten_sample_run.2 = Ok Fixtures.ten_sample_result
  /\ 10 <= 10
  /\ is_trained Fixtures.ten_sample_run.1 = true
  /\ is_model_loaded Fixtures.ten_sample_run.1 = true
  /\ total_samples_trained Fixtures.ten_sample_run.1 = 0 + 10
  /\ last_training_date Fixtures.ten_sample_run.1 = Some "2024-05-01T14:00:00"
  /\ training_history Fixtures.ten_sample_run.1
     = [] ++ [{| hist_date := "2024-05-01T14:00:00"; hist_samples := 10;
                 hist_accuracy := "100.00"; hist_version := 1 + 1 |}]
  /\ Fixtures.ten_sample_result
     = {| success := true; samplesProcessed := 10; accuracy := "100.00";
          version := 1 + 1; epochs := "N/A (Random Forest)" |}.
Proof.
  split; [vm_compute; reflexivity|].
  apply (successful_training_run Fixtures.env Fixtures.services
           (Some Fixtures.ten_samples) (init default_threat_threshold)
           Fixtures.ten_sample_result).
  vm_compute. reflexivity.
Defined.

Lemma train_model_on_failure_keeps env svc training_data (P : detector -> Prop) :
  (forall self v, P self -> P (set_model_version v self)) ->
  (forall self sc, P self -> P (set_scaler sc self)) ->
  (forall self m, P self -> P (set_model m self)) ->
  on_failure P (train_model env svc training_data).
Proof.
  intros Hversion Hscaler Hmodel. unfold train_model.
  apply on_failure_bind; [apply maintains_assign; auto|]. intros _.
  apply on_failure_bind.
  { destruct training_data;
      (eapply maintains_bind; [apply maintains_call | intros; by apply maintains_ret]). }
  intros data. cbv zeta.
  destruct (Z.of_nat (length data) <? 10); [apply on_failure_raise|].
  apply on_failure_bind; [apply maintains_call|]. intros _.
  apply on_failure_bind; [apply maintains_call|]. intros d.
  destruct (negb (d =? 9)); [apply on_failure_raise|].
  apply on_failure_bind; [apply maintains_call|]. intros X.
  apply on_failure_bind; [apply maintains_call|].
  intros [[[X_train X_test] y_train] y_test].
  apply on_failure_bind; [apply maintains_assign; auto|]. intros _.
  apply on_failure_bind; [apply maintains_call|]. intros [sc X_train_scaled].
  apply on_failure_bind; [apply maintains_assign; auto|]. intros _.
  apply on_failure_bind; [apply maintains_call|]. intros X_test_scaled.
  apply on_failure_bind; [apply maintains_call|]. intros y_train_encoded.
  apply on_failure_bind; [apply maintains_call|]. intros y_test_encoded.
  apply on_failure_bind; [apply maintains_assign; auto|]. intros _.
  apply on_failure_bind; [apply maintains_call|]. intros m.
  apply on_failure_bind; [apply maintains_assign; auto|]. intros _.
  apply on_failure_bind; [apply maintains_call|]. intros y_pred.
  apply on_failure_bind; [apply maintains_call|]. intros _.
  apply on_failure_returns. intros self'. eexists. reflexivity.
Qed.

(** X6: a training run that raises, at whatever point, leaves the
    statistics as they were: the trained flag, the sample total, the date
    of the last training, the history and the threshold.  Only the version
    counter has moved. *)
Theorem failed_training_run_keeps_statistics :
  forall (env : Env) (svc : Services) (training_data : option (list Sample))
         (self : detector) (e : exn),
    (train_model env svc training_data self).2 = Raise e ->
    let self' := (train_model env svc training_data self).1 in
    is_trained self' = is_trained self
    /\ total_samples_trained self' = total_samples_trained self
    /\ last_training_date self' = last_training_date self
    /\ training_history self' = training_history self
    /\ threat_threshold self' = threat_threshold self.
Proof.
  intros env svc training_data self e He self'. subst self'.
  apply (train_model_on_failure_keeps env svc training_data
           (fun s => is_trained s = is_trained self
                     /\ total_samples_trained s = total_samples_trained self
                     /\ last_training_date s = last_training_date self
                     /\ training_history s = training_history self
                     /\ threat_threshold s = threat_threshold self))
    with (e := e); try done.
Qed.

Lemma failed_training_run_keeps_statistics_witness :
  Fixtures.nine_sample_run.2 = Raise (insufficient_training_data 9)
  /\ is_trained Fixtures.nine_sample_run.1 = false
  /\ total_samples_trained Fixtures.nine_sample_run.1 = 0
  /\ last_training_date Fixtures.nine_sample_run.1 = None
  /\ training_history Fixtures.nine_sample_run.1 = []
  /\ threat_threshold Fixtures.nine_sample_run.1 = default_threat_threshold.
Proof.
  split; [vm_compute; reflexivity|].
  apply (failed_training_run_keeps_statistics Fixtures.env Fixtures.services
           (Some (take 9 Fixtures.ten_samples)) (init default_threat_threshold)
           (insufficient_training_data 9)).
  vm_compute. reflexivity.
Defined.

Lemma np_shape1_uniform (X : list (list val)) d :
  X <> [] -> Forall (fun r => length r = d) X -> np_shape1 X = Ok (Z.of_nat d).
Proof.
  intros Hne HX. destruct X as [|r X]; [done|].
  apply Forall_cons in HX as [Hr HX]. unfold np_shape1.
  assert (Hall : forallb (fun r' => (length r' =? length r)%nat) X = true).
  { apply forallb_forall. intros r' Hr'. rewrite Forall_forall in HX.
    apply Nat.eqb_eq. rewrite Hr. apply HX. by apply list_elem_of_In. }
  by rewrite Hall, Hr.
Qed.

Lemma np_unique_valid (y : list val) :
  Forall (fun v => is_valid_threat v = true) y -> np_unique y = Ok tt.
Proof.
  intros Hy. unfold np_unique.
  assert (Hnone : existsb (fun v => match v with VNone => true | _ => false end) y
                  = false).
  { induction Hy as [|v y Hv _ IH]; [reflexivity|]. simpl. rewrite IH.
    by destruct v. }
  by rewrite Hnone.
Qed.

(** X7: ten or more samples with valid labels whose feature vectors all
    have the same length, other than nine, are refused with the error that
    names that length, before anything is fitted: the model and the scaler
    are the ones held before the call. *)
Theorem train_model_rejects_wrong_width :
  forall (env : Env) (svc : Services) (training_data : option (list Sample))
         (self : detector) (d : nat),
    Database svc = Ok tt ->
    (10 <= length (samples_used svc training_data))%nat ->
    Forall (fun s => is_valid_threat (label s) = true
                     /\ length (features s) = d)
           (samples_used svc training_data) ->
    d <> 9%nat ->
    (train_model env svc training_data self).2
      = Raise (ValueError ("Expected 9 features, got " +:+ pretty (Z.of_nat d)))
    /\ model (train_model env svc training_data self).1 = model self
    /\ scaler (train_model env svc training_data self).1 = scaler self.
Proof.
  intros env svc training_data self d Hdb Hlen Hall Hd.
  assert (Hge : (Z.of_nat (length (samples_used svc training_data)) <? 10) = false)
    by (apply Z.ltb_ge; lia).
  assert (Hu : np_unique (map label (samples_used svc training_data)) = Ok tt).
  { apply np_unique_valid, Forall_fmap. eapply Forall_impl; [exact Hall|].
    by intros s [? ?]. }
  assert (Hs : np_shape1 (map features (samples_used svc training_data))
               = Ok (Z.of_nat d)).
  { apply np_shape1_uniform.
    - destruct (samples_used svc training_data); [simpl in Hlen; lia | done].
    - apply Forall_fmap. eapply Forall_impl; [exact Hall|]. by intros s [? ?]. }
  assert (Hne : negb (Z.of_nat d =? 9) = true).
  { apply negb_true_iff, Z.eqb_neq. lia. }
  unfold train_model, mbind, method_bind, assign, call, raise.
  destruct training_data as [data|]; simpl in *;
    rewrite Hdb; simpl; rewrite Hge, Hu; simpl; rewrite Hs; simpl;
    rewrite Hne; done.
Qed.

Lemma train_model_rejects_wrong_width_witness :
  (train_model Fixtures.env Fixtures.services (Some Fixtures.narrow_samples)
     Fixtures.trained).2
  = Raise (ValueError "Expected 9 features, got 3")
  /\ model (train_model Fixtures.env Fixtures.services (Some Fixtures.narrow_samples)
              Fixtures.trained).1
     = Some Fixtures.fitted_forest
  /\ scaler (train_model Fixtures.env Fixtures.services (Some Fixtures.narrow_samples)
               Fixtures.trained).1
     = Some Fixtures.fitted_scaler.
Proof.
  apply (train_model_rejects_wrong_width Fixtures.env Fixtures.services
           (Some Fixtures.narrow_samples) Fixtures.trained 3%nat).
  - reflexivity.
  - simpl. lia.
  - repeat constructor.
  - lia.
Defined.

Lemma train_runs_snoc runs env svc training_data self :
  train_runs (runs ++ [(env, svc, training_data)]) self
  = (train_model env svc training_data (train_runs runs self)).1.
Proof. unfold train_runs. by rewrite foldl_snoc. Qed.

(** X8: after any series of training requests, successful or not, the
    version counter has advanced by the number of requests. *)
Theorem version_counts_training_requests :
  forall (runs : list (Env * Services * option (list Sample))) (self : detector),
    model_version (train_runs runs self)
    = model_version self + Z.of_nat (length runs).
Proof.
  intros runs self. induction runs as [|[[env svc] training_data] runs IH] using rev_ind.
  - simpl. lia.
  - rewrite train_runs_snoc, length_app. simpl.
    destruct (train_model_first_statement env svc training_data (train_runs runs self))
      as (rest & -> & Hrest).
    destruct (Hrest (model_version (train_runs runs self) + 1)
                (set_model_version (model_version (train_runs runs self) + 1)
                   (train_runs runs self)) eq_refl) as [-> _].
    lia.
Qed.

End TrainingRuns.


(** ** Saving and loading the artifact *)

Section Persistence.
Import ThreatDetector.

(** X9: what [save_model] writes, [load_model] reads back.  After a save
    without write failures, loading into any detector succeeds and gives
    the saved model and scaler, version, sample total, training date and
    history; the detector is marked trained and keeps its own threshold. *)
Theorem save_then_load_round_trip :
  forall (self other : detector) (disk : Disk),
    let saved := save_model no_faults self disk in
    let loaded := load_model other saved.1 in
    saved.2 = true
    /\ loaded.2 = true
    /\ model loaded.1 = model self
    /\ scaler loaded.1 = scaler self
    /\ model_version loaded.1 = model_version self
    /\ total_samples_trained loaded.1 = total_samples_trained self
    /\ last_training_date loaded.1 = last_training_date self
    /\ training_history loaded.1 = training_history self
    /\ is_trained loaded.1 = true
    /\ threat_threshold loaded.1 = threat_threshold other.
Proof. intros self other disk. simpl. repeat split. Qed.

(** X10: [load_model] answers [True] exactly when both the model file and
    the scaler file can be read, and then holds their contents and is
    marked trained.  When it answers [False] the trained flag, the scaler
    and the metadata attributes are untouched; the model is untouched too
    unless the model file was read and the scaler file then failed, which
    leaves the new model beside the old scaler.  A missing or unreadable
    metadata document never makes it fail: the four attributes keep their
    values. *)
Theorem load_model_outcomes :
  forall (self : detector) (disk : Disk),
    let loaded := load_model self disk in
    (loaded.2 = true <->
     exists m sc, model_file disk = Holds m /\ scaler_file disk = Holds sc)
    /\ (loaded.2 = true ->
        is_trained loaded.1 = true
        /\ model_file disk = Holds (model loaded.1)
        /\ scaler_file disk = Holds (scaler loaded.1))
    /\ (loaded.2 = false ->
        is_trained loaded.1 = is_trained self
        /\ scaler loaded.1 = scaler self
        /\ model_version loaded.1 = model_version self
        /\ total_samples_trained loaded.1 = total_samples_trained self
        /\ last_training_date loaded.1 = last_training_date self
        /\ training_history loaded.1 = training_history self
        /\ (model loaded.1 = model self
            \/ model_file disk = Holds (model loaded.1)
               /\ scaler_file disk = Corrupt))
    /\ ((forall metadata, metadata_file disk <> Holds metadata) ->
        model_version loaded.1 = model_version self
        /\ total_samples_trained loaded.1 = total_samples_trained self
        /\ last_training_date loaded.1 = last_training_date self
        /\ training_history loaded.1 = training_history self).
Proof.
  intros self disk. unfold load_model, load_metadata.
  destruct (model_file disk) as [|m|], (scaler_file disk) as [|sc|];
    simpl; repeat split; try done; try (intros (? & ? & ? & ?); done);
    try (intros; by eauto).
  all: destruct (metadata_file disk) as [|metadata|]; simpl; try done.
  all: by destruct (H metadata).
Qed.

(** X11: [save_model] reports success exactly when the model and the
    scaler were written, whatever became of the metadata document: its
    failure is logged inside [save_metadata] and not seen by the caller.
    A failed model write stops the save before the scaler and the metadata
    are touched. *)
Theorem save_model_outcomes :
  forall (faults : WriteFaults) (self : detector) (disk : Disk),
    let saved := save_model faults self disk in
    (saved.2 = true <-> model_fault faults = None /\ scaler_fault faults = None)
    /\ (saved.2 = true ->
        model_file saved.1 = Holds (model self)
        /\ scaler_file saved.1 = Holds (scaler self)
        /\ (metadata_fault faults = None ->
            exists metadata,
              metadata_file saved.1 = Holds metadata
              /\ md_version metadata = Some (model_version self)
              /\ md_totalSamplesTrained metadata = Some (total_samples_trained self)
              /\ md_trainingHistory metadata = Some (training_history self)
              /\ md_lastTrainingDate metadata = last_training_date self)
        /\ (forall left_behind, metadata_fault faults = Some left_behind ->
              metadata_file saved.1 = left_behind))
    /\ (model_fault faults <> None ->
        scaler_file saved.1 = scaler_file disk
        /\ metadata_file saved.1 = metadata_file disk).
Proof.
  intros [mf sf df] self disk. unfold save_model, save_metadata, write. simpl.
  destruct mf as [?|], sf as [?|], df as [?|]; simpl;
    repeat split; try done; try (by intros [? ?]); try (by intros ? [= <-]);
    try (intros _; eexists; repeat split; done).
Qed.

End Persistence.


(** ** From a detection to the store, the alerts and the training data *)

Section Application.
Import ThreatDetector App.

Lemma get_severity_Critical label conf :
  get_severity label conf = "Critical" <-> (0.9 <? conf)%float = true.
Proof.
  unfold get_severity. destruct (0.9 <? conf)%float; [done|].
  destruct (0.8 <? conf)%float; [done|]. by destruct (0.7 <? conf)%float.
Qed.

(** X12: [learn_from_detection] never raises and adds at most one row to
    the training data, at the end and tagged [live_detection]: its label
    is the label of the answer and its features are the ones extracted
    from the packet.  It adds nothing unless the confidence exceeds 0.9,
    and it does add the row when the confidence exceeds 0.9, the record
    store can be opened and the insertion succeeds. *)
Theorem learn_from_detection_adds_one_row :
  forall (env : Env) (svc : Services) (insert : Sample -> res unit)
         (store : training_store) (packet_data : packet) (a : analysis),
    let store' := learn_from_detection env svc insert store packet_data a in
    let added sample :=
      store' = store ++ [(sample, "live_detection")]
      /\ label sample = VStr (classification a)
      /\ threat_type (raw_data sample) = VStr (classification a)
      /\ extract_features_from_packet env packet_data = Ok (features sample) in
    (store' = store \/ exists sample, added sample)
    /\ (exceeds_0_9 (confidence a) <> Ok true -> store' = store)
    /\ (exceeds_0_9 (confidence a) = Ok true ->
        Database svc = Ok tt ->
        (forall sample, insert sample = Ok tt) ->
        exists sample, added sample).
Proof.
  intros env svc insert store packet_data a. cbv zeta.
  unfold learn_from_detection, save_training_data.
  destruct (extract_features_from_packet_total env packet_data) as (fs & Hfs & _).
  rewrite Hfs.
  destruct (exceeds_0_9 (confidence a)) as [[]|]; simpl;
    [|by repeat split; eauto..].
  destruct (Database svc) as [[]|]; simpl.
  - match goal with |- context [insert ?s] => destruct (insert s) as [[]|] eqn:Hi end.
    + repeat split; try done; [right|]; by eexists.
    + repeat split; try done; [by left|]. intros _ _ Hins. congruence.
  - repeat split; try done. by left.
Qed.


(** X14: the handler adds no training data unless the record it stored is
    of severity Critical and the three emits went through; and then it
    hands the packet and the answer to [learn_from_detection].  Learning is
    thus tied to the Critical band: a High detection is alerted on but not
    learnt from. *)
Theorem only_critical_detections_are_learnt :
  forall (env : Env) (svc : Services) (col : Collaborators) (self : detector)
         (packet_data : packet) (w : World),
    let w' := handle_packet_captured env svc col self packet_data w in
    let emitted :=
      emit col "new_alert" = Ok tt /\ emit col "new_threat" = Ok tt
      /\ emit col "system_status" = Ok tt in
    (training_data w' = training_data w
     \/ exists r t,
          analyze_packet env self packet_data = Ok r
          /\ threat r = Some t
          /\ th_severity t = "Critical"
          /\ emitted)
    /\ (forall r t,
          analyze_packet env self packet_data = Ok r ->
          threat r = Some t ->
          th_severity t = "Critical" ->
          emitted ->
          training_data w'
          = learn_from_detection env svc (insert_training_data col)
              (training_data w) packet_data r).
Proof.
  intros env svc col self packet_data w w' emitted. subst w' emitted.
  destruct (analyze_packet_returns env self packet_data) as [r Hr].
  pose proof (threat_iff_flag _ _ _ _ Hr) as Hiff.
  unfold handle_packet_captured, handler_try_block, mbind, action_bind, lift.
  rewrite Hr. cbn [fst snd].
  destruct (threat r) as [t|] eqn:Ht.
  - assert (Hflag : isThreat r = true) by (apply Hiff; eauto).
    destruct (threat_of_answer _ _ _ _ _ Hr Ht)
      as (_ & _ & _ & _ & Hconf & _ & Hsev & _).
    assert (Hhigh : exceeds_0_9 (confidence r)
                    = Ok (bool_decide (th_severity t = "Critical"))).
    { rewrite Hconf, Hsev. simpl. f_equal.
      destruct (0.9 <? th_confidence t)%float eqn:E.
      - symmetry. by apply bool_decide_eq_true, get_severity_Critical.
      - symmetry. apply bool_decide_eq_false. rewrite get_severity_Critical.
        congruence. }
    rewrite Hflag, Hhigh.
    unfold count_threat, ask, learn, mret, action_ret.
    cbn [fst snd status requests training_data].
    assert (Hin : th_severity t = "Critical" ->
                  bool_decide (th_severity t ∈ ["Critical"; "High"]) = true).
    { intros ->. by apply bool_decide_eq_true; left. }
    destruct (bool_decide (th_severity t = "Critical")) eqn:Hcrit;
      [apply bool_decide_eq_true in Hcrit; rewrite (Hin Hcrit)
      | apply bool_decide_eq_false in Hcrit;
        destruct (bool_decide (th_severity t ∈ ["Critical"; "High"]))];
      try destruct (send_threat_alert col t);
      try destruct (emit col "new_alert") as [[]|]; cbn;
      try destruct (emit col "new_threat") as [[]|]; cbn;
      try destruct (emit col "system_status") as [[]|]; cbn.
    all: split;
      [first [by left | right; by exists r, t]
      | intros r' t' Hr' Ht' Hc He;
        assert (r' = r) by congruence; subst r';
        assert (t' = t) by congruence; subst t';
        first [done | by destruct He as (? & ? & ?)]].
  - split; [left; by destruct (isThreat r)|].
    intros r' t' Hr' Ht'. assert (r' = r) by congruence. subst r'. congruence.
Qed.

End Application.


(** ** A restart from the saved artifact *)

Section Restart.
Import ThreatDetector.

(** X15: a detector restarted from what a trained detector saved answers
    every packet as the saving detector does, provided it runs with the
    same threshold (the threshold is read from the environment, not from
    the artifact): [initialize] reports success and the two are equally
    ready. *)
Theorem restarted_detector_answers_alike :
  forall (env : Env) (self other : detector) (disk : Disk) (packet_data : packet),
    is_trained self = true ->
    threat_threshold other = threat_threshold self ->
    let restarted := initialize other (save_model no_faults self disk).1 in
    restarted.2 = true
    /\ is_model_loaded restarted.1 = is_model_loaded self
    /\ analyze_packet env restarted.1 packet_data = analyze_packet env self packet_data.
Proof.
  intros env self other disk packet_data Htrained Hthr. simpl.
  split; [reflexivity|]. split.
  - unfold is_model_loaded. simpl. by rewrite Htrained.
  - unfold analyze_packet, analyze_try_block, classify, is_threat_of. simpl.
    by rewrite Htrained, Hthr.
Qed.

Lemma restarted_detector_answers_alike_witness :
  (initialize (init default_threat_threshold)
     (save_model no_faults Fixtures.trained Fixtures.empty_disk).1).2 = true
  /\ is_model_loaded
       (initialize (init default_threat_threshold)
          (save_model no_faults Fixtures.trained Fixtures.empty_disk).1).1
     = is_model_loaded Fixtures.trained
  /\ analyze_packet Fixtures.env
       (initialize (init default_threat_threshold)
          (save_model no_faults Fixtures.trained Fixtures.empty_disk).1).1
       Fixtures.ssh_probe
     = analyze_packet Fixtures.env Fixtures.trained Fixtures.ssh_probe.
Proof.
  apply (restarted_detector_answers_alike Fixtures.env Fixtures.trained
           (init default_threat_threshold) Fixtures.empty_disk Fixtures.ssh_probe);
    reflexivity.
Defined.
End Restart.


(** ** The latest packets *)

Section RecentPackets.
Import NetworkMonitor.

Lemma get_recent_packets_positive self count :
  0 < count ->
  get_recent_packets self count
  = drop (length (packet_buffer self) - Z.to_nat count) (packet_buffer self).
Proof.
  intros Hc. unfold get_recent_packets, slice_from.
  destruct (packet_buffer self) as [|p buf] eqn:E; [reflexivity|].
  cbn [nonempty]. destruct (Z.ltb_spec (- count) 0); [|lia].
  f_equal. lia.
Qed.

(** X16: on any state of the buffer, [get_recent_packets] with a
    positive count gives the last [count] entries of the buffer, in
    order, and all of them when the buffer holds fewer.  A count of 0
    gives the whole buffer, not an empty list, and a negative count the
    buffer without its first [-count] entries.  The answer is always an
    end piece of the buffer. *)
Theorem recent_packets_are_the_latest :
  forall (self : monitor) (count : Z),
    let buffer := packet_buffer self in
    (0 < count ->
     get_recent_packets self count
     = drop (length buffer - Z.to_nat count) buffer
     /\ length (get_recent_packets self count)
        = (Z.to_nat count `min` length buffer)%nat)
    /\ get_recent_packets self 0 = buffer
    /\ (count < 0 ->
        get_recent_packets self count = drop (Z.to_nat (- count)) buffer)
    /\ get_recent_packets self count `suffix_of` buffer.
Proof.
  intros self count buffer. subst buffer.
  split; [|split; [|split]].
  - intros Hc. rewrite get_recent_packets_positive by done.
    split; [reflexivity|]. rewrite length_drop. lia.
  - unfold get_recent_packets, slice_from.
    destruct (packet_buffer self); [reflexivity|]. cbn [nonempty]. simpl. reflexivity.
  - intros Hc. unfold get_recent_packets, slice_from.
    destruct (packet_buffer self) as [|p buf] eqn:E; [cbn [nonempty]; by rewrite drop_nil|].
    cbn [nonempty]. destruct (Z.ltb_spec (- count) 0); [lia|].
    destruct (Z.min_spec (- count) (Z.of_nat (length (p :: buf)))) as [[_ ->]|[Hge ->]];
      [reflexivity|].
    rewrite Nat2Z.id, !drop_ge; [reflexivity| lia | lia].
  - unfold get_recent_packets, slice_from.
    destruct (nonempty _); [apply suffix_drop | apply suffix_nil].
Qed.
End RecentPackets.


(** ** Traffic direction and address locality *)

Section Direction.
Import ThreatDetector.

Lemma get_ip_type_private env s :
  get_ip_type_from_string env (VStr s) = 1 <-> is_private_prefix s = true.
Proof.
  unfold get_ip_type_from_string. simpl.
  destruct (String.eqb_spec s "") as [->|Hne]; simpl.
  - split; [discriminate|]. vm_compute. discriminate.
  - destruct (is_private_prefix s); split; done.
Qed.

(** X17: the monitor and the detector agree on what a private address
    is.  On a packet whose addresses are text or absent, neither direction
    check raises; a packet counts as outbound exactly when its source
    address is in a private range, which is exactly when the detector
    gives the source the locality 1, and likewise inbound for the
    destination. *)
Theorem traffic_direction_agrees_with_locality :
  forall (env : Env) (packet_data : packet),
    absent_or_text packet_data "sourceIP" ->
    absent_or_text packet_data "destinationIP" ->
    exists outbound inbound,
      NetworkMonitor.is_outbound_traffic packet_data = Ok outbound
      /\ NetworkMonitor.is_inbound_traffic packet_data = Ok inbound
      /\ (outbound = true <-> private_range (text_field packet_data "sourceIP"))
      /\ (inbound = true <-> private_range (text_field packet_data "destinationIP"))
      /\ (outbound = true <->
          get_source_ip_category env (get packet_data "sourceIP" (VStr "")) = 1)
      /\ (inbound = true <->
          get_destination_ip_category env (get packet_data "destinationIP" (VStr "")) = 1).
Proof.
  intros env packet_data Hsrc Hdst.
  unfold NetworkMonitor.is_outbound_traffic, NetworkMonitor.is_inbound_traffic,
    get_source_ip_category, get_destination_ip_category.
  rewrite !get_text_field by assumption.
  exists (is_private_prefix (text_field packet_data "sourceIP")),
         (is_private_prefix (text_field packet_data "destinationIP")).
  split; [reflexivity|]. split; [reflexivity|].
  rewrite !get_ip_type_private. 
  repeat split; try apply is_private_prefix_spec; done.
Qed.

Lemma traffic_direction_agrees_with_locality_witness :
  exists outbound inbound,
    NetworkMonitor.is_outbound_traffic Fixtures.ssh_probe = Ok outbound
    /\ NetworkMonitor.is_inbound_traffic Fixtures.ssh_probe = Ok inbound
    /\ (outbound = true <-> private_range (text_field Fixtures.ssh_probe "sourceIP"))
    /\ (inbound = true <-> private_range (text_field Fixtures.ssh_probe "destinationIP"))
    /\ (outbound = true <->
        get_source_ip_category Fixtures.env
          (get Fixtures.ssh_probe "sourceIP" (VStr "")) = 1)
    /\ (inbound = true <->
        get_destination_ip_category Fixtures.env
          (get Fixtures.ssh_probe "destinationIP" (VStr "")) = 1).
Proof.
  apply (traffic_direction_agrees_with_locality Fixtures.env Fixtures.ssh_probe);
    right; eexists; vm_compute; reflexivity.
Defined.
End Direction.


(** ** What the import hands to training *)

Section ImportedSamples.
Import ThreatDetector.

Lemma some_missing_column (cols required : list string) c :
  c ∈ required -> c ∉ cols ->
  nonempty (filter (fun col => col ∉ cols) required) = true.
Proof.
  intros Hc Hn.
  assert (Hin : c ∈ filter (fun col => col ∉ cols) required)
    by (apply list_elem_of_filter; by split).
  destruct (filter _ _); [by apply not_elem_of_nil in Hin | reflexivity].
Qed.

Lemma missing_columns_dec (cols required : list string) :
  (forall c, c ∈ required -> c ∈ cols)
  \/ exists c, c ∈ required /\ c ∉ cols.
Proof.
  induction required as [|c required [IH|(c' & Hc' & Hn)]].
  - left. intros c Hc. by apply not_elem_of_nil in Hc.
  - destruct (decide (c ∈ cols)) as [Hc|Hc].
    + left. intros c' [->|Hc']%elem_of_cons; auto.
    + right. exists c. split; [by left | done].
  - right. exists c'. split; [by right | done].
Qed.

(** X18: once the table is read, the import raises exactly when a
    required column is missing.  It then logs one error and raises the
    "Missing required columns" error without looking at any row; that
    error line is in the log in that case only, and the only other error
    lines an import logs are those of the feature extraction. *)
Theorem csv_import_fails_only_on_missing_columns :
  forall (env : Env) (df : DataFrame),
    let out := process_csv_file env df in
    let missing := exists c, c ∈ required_columns /\ c ∉ columns df in
    (raises out.2 <-> missing)
    /\ (missing ->
        out = ([(INFO, "Processing CSV file for training"); (INFO, "CSV loaded");
                (ERROR, "Error processing CSV file")],
               Raise (ValueError "Missing required columns")))
    /\ ((ERROR, "Error processing CSV file") ∈ out.1 <-> missing)
    /\ (forall msg, (ERROR, msg) ∈ out.1 ->
          msg = "Error processing CSV file" \/ msg = "Error extracting features").
Proof.
  intros env df out missing. subst out missing.
  assert (Hmiss : (exists c, c ∈ required_columns /\ c ∉ columns df) ->
                  process_csv_file env df
                  = ([(INFO, "Processing CSV file for training"); (INFO, "CSV loaded");
                      (ERROR, "Error processing CSV file")],
                     Raise (ValueError "Missing required columns"))).
  { intros (c & Hc & Hn). unfold process_csv_file.
    by rewrite (some_missing_column _ _ c Hc Hn). }
  split; [|split; [exact Hmiss|split]].
  - split.
    + intros [e He].
      destruct (missing_columns_dec (columns df) required_columns) as [Hcols|H]; [|exact H].
      destruct (process_csv_file_outcome env df Hcols) as (? & ? & ? & Heq & _).
      rewrite Heq in He. discriminate.
    + intros H. rewrite (Hmiss H). by eexists.
  - split.
    + intros Hin.
      destruct (missing_columns_dec (columns df) required_columns) as [Hcols|H]; [|exact H].
      by apply (process_csv_file_not_aborted env df Hcols) in Hin.
    + intros H. rewrite (Hmiss H). cbn [fst]. do 2 right. by left.
  - intros msg Hin.
    destruct (missing_columns_dec (columns df) required_columns) as [Hcols|H].
    + right. by apply (process_csv_file_not_aborted env df Hcols).
    + rewrite (Hmiss H) in Hin. cbn [fst] in Hin.
      rewrite !elem_of_cons, elem_of_nil in Hin.
      destruct Hin as [?|[?|[Hin|[]]]]; try discriminate.
      left. by injection Hin.
Qed.

(** The samples of a run of the loop have nine features, none NaN. *)
Lemma process_rows_nine_clean_features env rows :
  Forall nine_clean_features (process_rows env rows []).2.
Proof.
  destruct (process_rows_exact env rows []) as [-> _]. simpl.
  apply Forall_fmap, Forall_forall. intros r Hr.
  apply list_elem_of_filter in Hr as [Hr _]. unfold retained in Hr.
  apply negb_true_iff in Hr.
  destruct (extract_features_from_csv_row_shape env r) as (Hlen & Hnum & _).
  split; [exact Hlen|]. by apply holds_no_nan_clean.
Qed.

Lemma label_transform_valid s :
  s ∈ threat_types ->
  exists i, label_transform (VStr s) = Ok i /\ 0 <= i < 7.
Proof.
  intros Hs. unfold threat_types in Hs.
  repeat (apply elem_of_cons in Hs as [->|Hs]);
    try (eexists; split; [vm_compute; reflexivity | lia]).
  by apply elem_of_nil in Hs.
Qed.

Lemma mapM_label_transform (ys : list val) :
  Forall (fun v => is_valid_threat v = true) ys ->
  exists codes, mapM label_transform ys = Ok codes
                /\ length codes = length ys
                /\ Forall (fun i => 0 <= i < 7) codes.
Proof.
  induction 1 as [|v ys Hv _ (codes & IH & Hlen & Hr)]; [by exists []|].
  destruct v as [| | |s]; try discriminate. simpl in Hv.
  apply bool_decide_eq_true in Hv.
  destruct (label_transform_valid s Hv) as (i & Hi & Hrange).
  exists (i :: codes). cbn [mapM]. rewrite Hi, IH. simpl.
  split; [reflexivity|]. split; [by rewrite Hlen|]. by constructor.
Qed.

(** X19: what the import returns is fit for training.  Every sample has
    nine features, all numbers and none NaN, and a label of the closed
    set; so the label listing of [train_model] goes through, the width
    check finds nine columns, and the label encoder knows every label. *)
Theorem imported_samples_pass_the_training_checks :
  forall (env : Env) (df : DataFrame) (samples : list Sample),
    (process_csv_file env df).2 = Ok samples ->
    Forall (fun s => length (features s) = 9%nat
                     /\ Forall clean (features s)
                     /\ is_valid_threat (label s) = true) samples
    /\ np_unique (map label samples) = Ok tt
    /\ (samples <> [] -> np_shape1 (map features samples) = Ok 9)
    /\ exists codes,
         mapM label_transform (map label samples) = Ok codes
         /\ length codes = length samples
         /\ Forall (fun i => 0 <= i < 7) codes.
Proof.
  intros env df samples Hs.
  assert (Hcols : forall c, c ∈ required_columns -> c ∈ columns df).
  { destruct (missing_columns_dec (columns df) required_columns) as [H|(c & Hc & Hn)];
      [exact H|].
    unfold process_csv_file in Hs.
    rewrite (some_missing_column _ _ c Hc Hn) in Hs. discriminate. }
  destruct (process_csv_file_outcome env df Hcols)
    as (l1 & l2 & samples' & Heq & [= _ _ Hsamples]).
  rewrite Heq in Hs. injection Hs as ->.
  assert (Hwf : Forall nine_clean_features samples).
  { rewrite Hsamples. apply process_rows_nine_clean_features. }
  assert (Hvalid : Forall (fun s => is_valid_threat (label s) = true) samples).
  { rewrite Hsamples.
    destruct (process_rows_exact env (valid_rows (rows df)) []) as [-> _]. simpl.
    apply Forall_fmap, Forall_forall. intros r Hr. simpl.
    apply list_elem_of_filter in Hr as [_ Hr].
    apply list_elem_of_filter in Hr. tauto. }
  split; [|split; [|split]].
  - rewrite Forall_forall in Hwf, Hvalid |- *. intros s Hin.
    destruct (Hwf s Hin). auto.
  - by apply np_unique_valid, Forall_fmap.
  - intros Hne. apply (np_shape1_uniform _ 9).
    + by destruct samples.
    + apply Forall_fmap. eapply Forall_impl; [exact Hwf|]. by intros s [? _].
  - destruct (mapM_label_transform (map label samples)) as (codes & Hc & Hlen & Hr).
    { by apply Forall_fmap. }
    exists codes. rewrite length_map in Hlen. done.
Qed.

Lemma imported_samples_pass_the_training_checks_witness :
  Forall (fun s => length (features s) = 9%nat
                   /\ Forall clean (features s)
                   /\ is_valid_threat (label s) = true) [Fixtures.scan_sample]
  /\ np_unique (map label [Fixtures.scan_sample]) = Ok tt
  /\ ([Fixtures.scan_sample] <> [] ->
      np_shape1 (map features [Fixtures.scan_sample]) = Ok 9)
  /\ exists codes,
       mapM label_transform (map label [Fixtures.scan_sample]) = Ok codes
       /\ length codes = length [Fixtures.scan_sample]
       /\ Forall (fun i => 0 <= i < 7) codes.
Proof.
  apply (imported_samples_pass_the_training_checks Fixtures.env
           Fixtures.scan_table [Fixtures.scan_sample]).
  vm_compute. reflexivity.
Defined.

End ImportedSamples.


(** ** From a captured line to the features *)

Section CapturedLines.
Import ThreatDetector.

Lemma get_ip_type_range env v : get_ip_type_from_string env v ∈ [0; 1; 2].
Proof.
  unfold get_ip_type_from_string.
  destruct (isna v || negb (truthy v)); [by left|].
  destruct (is_private_prefix _); [right; by left | right; right; by left].
Qed.

(** X20: from a line of the capture to the features.  A line of ASCII
    text gives a packet only if it starts with [IP] and has at least six
    words; the packet then records the line and the interface, the fifth
    word in lower case as its protocol, and integer size and ports; and,
    the interpreter reading back the timestamps it prints, its features
    are nine integers: size, ports, the code of that protocol word, the
    hour of the capture, the two categories and two localities in 0..2. *)
Theorem captured_line_becomes_typed_packet :
  forall (env : Env) (line interface : string) (packet_data : packet) (h : Z),
    is_ascii line = true ->
    fromisoformat_hour env (replace_char "Z"%char "+00:00" (now_isoformat env)) = Ok h ->
    NetworkMonitor.parse_packet_line env line interface = Some packet_data ->
    startswith line "IP " = true
    /\ (6 <= length (split line))%nat
    /\ exists word size sport dport src dst,
         split line !! 4%nat = Some word
         /\ packet_data !! "rawLine" = Some (VStr line)
         /\ packet_data !! "networkInterface" = Some (VStr interface)
         /\ packet_data !! "protocol" = Some (VStr (lower word))
         /\ packet_data !! "packetSize" = Some (VInt size)
         /\ packet_data !! "sourcePort" = Some (VInt sport)
         /\ packet_data !! "destinationPort" = Some (VInt dport)
         /\ extract_features_from_packet env packet_data
            = Ok [VInt size; VInt sport; VInt dport;
                  VInt (protocol_code (lower word)); VInt h;
                  VInt (port_category dport); VInt (size_category size);
                  VInt src; VInt dst]
         /\ src ∈ [0; 1; 2] /\ dst ∈ [0; 1; 2].
Proof.
  intros env line interface packet_data h _ Hh.
  unfold NetworkMonitor.parse_packet_line.
  destruct (startswith line "IP ") eqn:Hip; [|discriminate]. cbn [negb].
  destruct (Nat.ltb_spec (length (split line)) 6) as [|Hlen]; [discriminate|].
  destruct (lookup_lt_is_Some_2 (split line) 4) as [word Hword]; [lia|].
  rewrite Hword. cbn [default].
  destruct (NetworkMonitor.endpoint env (default "" (split line !! 1%nat)))
    as [[source_ip source_port]|]; simpl; [|discriminate].
  destruct (NetworkMonitor.endpoint env _) as [[dest_ip dest_port]|];
    simpl; [|discriminate].
  intros [= <-].
  split; [reflexivity|]. split; [exact Hlen|].
  exists word, (NetworkMonitor.packet_size_of env (split line)), source_port, dest_port,
    (get_ip_type_from_string env (VStr source_ip)),
    (get_ip_type_from_string env (VStr dest_ip)).
  split; [reflexivity|].
  do 6 (split; [reflexivity|]).
  split; [|split; apply get_ip_type_range].
  unfold extract_features_from_packet, packet_timestamp, get,
    get_source_ip_category, get_destination_ip_category.
  match goal with
  | |- context [?m !! "timestamp"] =>
      change (m !! "timestamp") with (Some (VStr (now_isoformat env)));
      change (m !! "packetSize")
        with (Some (VInt (NetworkMonitor.packet_size_of env (split line))));
      change (m !! "sourcePort") with (Some (VInt source_port));
      change (m !! "destinationPort") with (Some (VInt dest_port));
      change (m !! "protocol") with (Some (VStr (lower word)));
      change (m !! "sourceIP") with (Some (VStr source_ip));
      change (m !! "destinationIP") with (Some (VStr dest_ip))
  end.
  cbn [default get_time_features id].
  rewrite Hh, get_protocol_number_text, get_port_category_int,
    get_packet_size_category_int.
  reflexivity.
Qed.

Lemma captured_line_becomes_typed_packet_witness :
  startswith Fixtures.sample_line "IP " = true
  /\ (6 <= length (split Fixtures.sample_line))%nat
  /\ exists word size sport dport src dst,
       split Fixtures.sample_line !! 4%nat = Some word
       /\ Fixtures.sample_packet !! "rawLine" = Some (VStr Fixtures.sample_line)
       /\ Fixtures.sample_packet !! "networkInterface" = Some (VStr "eth0")
       /\ Fixtures.sample_packet !! "protocol" = Some (VStr (lower word))
       /\ Fixtures.sample_packet !! "packetSize" = Some (VInt size)
       /\ Fixtures.sample_packet !! "sourcePort" = Some (VInt sport)
       /\ Fixtures.sample_packet !! "destinationPort" = Some (VInt dport)
       /\ extract_features_from_packet Fixtures.env Fixtures.sample_packet
          = Ok [VInt size; VInt sport; VInt dport;
                VInt (protocol_code (lower word)); VInt 14;
                VInt (port_category dport); VInt (size_category size);
                VInt src; VInt dst]
       /\ src ∈ [0; 1; 2] /\ dst ∈ [0; 1; 2].
Proof.
  apply (captured_line_becomes_typed_packet Fixtures.env Fixtures.sample_line "eth0"
           Fixtures.sample_packet 14).
  - vm_compute. reflexivity.
  - vm_compute. reflexivity.
  - vm_compute. reflexivity.
Defined.
End CapturedLines.
